(** * revops-lead-router: the lead pipeline, embedded and verified

  A shallow embedding of the lead-routing workflow (capture, enrich,
  score, branch, route / nurture / summarize) and of the idempotency
  guard, with the properties of the specification proved or refuted
  against it.

  Conventions of the embedding:
  - a Python [float] is an IEEE binary64 value, Rocq's primitive [float];
    the literals of the source ([0.3], [0.7], ...) denote the same
    doubles in both languages;
  - a Python value of unknown type ([Any]) is a [pyval]; the fields of
    [LeadState] the source declares with a type are typed;
  - a call that may raise returns a [result];
  - the external collaborators (enrichment, model, CRM, similarity) are
    arguments of the stages, each a function to a [result]; the model
    client of [tools/llm.py] and the enrichment provider of
    [tools/clearbit.py] are embedded as well and can be given as these
    arguments, what they meet outside the program (API keys, requests,
    the event loop) being their parameters. *)

From Stdlib Require Import ZArith Floats Ascii String.
From stdpp Require Import base tactics option list strings pretty gmap.

Set Default Proof Using "Type".
Set Warnings "-inexact-float".
Local Open Scope Z_scope.

(* ================================================================== *)
(** ** Python floats *)

Module PyFloat.

Local Open Scope float_scope.

(** [a < b], [a <= b], [a >= b] on floats; every comparison with a NaN
    is [False], as in Python. *)
Definition lt (a b : float) : bool := a <? b.
Definition le (a b : float) : bool := a <=? b.
Definition ge (a b : float) : bool := b <=? a.

(** [min(a, b)]: the first argument unless the second is strictly
    smaller; [max(a, b)]: the first unless the second is strictly
    larger (CPython's [min]/[max] keep the earliest extremum). *)
Definition py_min (a b : float) : float := if b <? a then b else a.
Definition py_max (a b : float) : float := if a <? b then b else a.

(** [max(0.0, min(1.0, x))] *)
Definition clamp01 (x : float) : float := py_max 0 (py_min 1 x).

End PyFloat.

(* ================================================================== *)
(** ** Python strings

  Strings are byte strings; the case mappings and the whitespace class
  are the ASCII ones (the text handled here is e-mail addresses, host
  names, country codes and job titles). *)

Module PyStr.

Local Open Scope string_scope.

Definition in_range (lo hi : N) (c : ascii) : bool :=
  let n := N_of_ascii c in ((lo <=? n) && (n <=? hi))%N.

Definition lower_char (c : ascii) : ascii :=
  if in_range 65 90 c then ascii_of_N (N_of_ascii c + 32) else c.
Definition upper_char (c : ascii) : ascii :=
  if in_range 97 122 c then ascii_of_N (N_of_ascii c - 32) else c.

Fixpoint map_chars (f : ascii -> ascii) (s : string) : string :=
  match s with
  | EmptyString => EmptyString
  | String c s' => String (f c) (map_chars f s')
  end.

(** [s.lower()], [s.upper()] *)
Definition lower : string -> string := map_chars lower_char.
Definition upper : string -> string := map_chars upper_char.

(** [sub in s] *)
Fixpoint contains (sub s : string) : bool :=
  String.prefix sub s ||
  match s with
  | EmptyString => false
  | String _ s' => contains sub s'
  end.

(** [s.endswith(suf)] and [s.endswith((suf1, suf2, ...))] *)
Fixpoint endswith (suf s : string) : bool :=
  String.eqb s suf ||
  match s with
  | EmptyString => false
  | String _ s' => endswith suf s'
  end.
Definition endswith_any (sufs : list string) (s : string) : bool :=
  existsb (fun suf => endswith suf s) sufs.

(** [s.replace(old, new)] for a non-empty [old]: the occurrences are
    replaced from the left, without overlap.  [skip] counts the
    characters of a match still to be dropped. *)
Fixpoint replace_from (old new : string) (skip : nat) (s : string) : string :=
  match s with
  | EmptyString => EmptyString
  | String c s' =>
      match skip with
      | S k => replace_from old new k s'
      | O =>
          if String.prefix old s
          then new +:+ replace_from old new (String.length old - 1) s'
          else String c (replace_from old new O s')
      end
  end.
Definition replace (old new s : string) : string := replace_from old new O s.

(** [s.split(sep)[0]] for a one-character [sep] *)
Fixpoint before_first (sep : ascii) (s : string) : string :=
  match s with
  | EmptyString => EmptyString
  | String c s' => if Ascii.eqb c sep then EmptyString else String c (before_first sep s')
  end.

(** [s.strip()] *)
Definition is_space (c : ascii) : bool :=
  in_range 9 13 c || in_range 28 32 c.
Fixpoint lstrip (s : string) : string :=
  match s with
  | EmptyString => EmptyString
  | String c s' => if is_space c then lstrip s' else s
  end.
Definition strip (s : string) : string :=
  String.rev (lstrip (String.rev (lstrip s))).

(** [bool(s)] *)
Definition nonempty (s : string) : bool :=
  match s with EmptyString => false | _ => true end.

(** The text of [str(l)] for a list [l] of strings without quotes or
    backslashes: ['a', 'b']. *)
Definition repr_str (s : string) : string := "'" +:+ s +:+ "'".
Fixpoint join (sep : string) (l : list string) : string :=
  match l with
  | [] => ""
  | [x] => x
  | x :: l' => x +:+ sep +:+ join sep l'
  end.
Definition repr_list (l : list string) : string :=
  "[" +:+ join ", " (map repr_str l) +:+ "]".

End PyStr.

(* ================================================================== *)
(** ** Python values, exceptions and results *)

(** A value of unknown type ([Any]): what a JSON payload or an enrichment
    response can hold.  A [dict] keeps its items in insertion order; its
    keys are strings. *)
#[warnings="-register-all"]
Inductive pyval : Type :=
| PNone
| PBool (b : bool)
| PInt (n : Z)
| PFloat (x : float)
| PStr (s : string)
| PList (l : list pyval)
| PDict (d : list (string * pyval)).

Abbreviation pydict := (list (string * pyval)).

(** The exceptions of the model: the two the interpreter raises on an
    ill-typed operation, and [Exception] for whatever a collaborator
    raises.  The string is [str(e)]. *)
Inductive exn : Type :=
| AttributeError (msg : string)
| TypeError (msg : string)
| Exception (msg : string).

Definition exn_str (e : exn) : string :=
  match e with
  | AttributeError msg | TypeError msg | Exception msg => msg
  end.

(** The outcome of a call: a value, or an exception that propagates. *)
Inductive result (A : Type) : Type :=
| Ok (a : A)
| Raise (e : exn).
Arguments Ok {A} a.
Arguments Raise {A} e.

#[export] Instance result_ret : MRet result := @Ok.
#[export] Instance result_bind : MBind result :=
  fun A B f m => match m with Ok a => f a | Raise e => Raise e end.

Definition is_ok {A} (r : result A) : bool :=
  match r with Ok _ => true | Raise _ => false end.

(** How Python renders values as text where this development does not
    compute it: [str(v)] of a value that is neither a string, [None], a
    [bool] nor an [int], and a float under the format [.2f]. *)
Record text_format : Type := {
  str_other : pyval -> string;
  format_2f : float -> string
}.

Module Py.

Local Open Scope string_scope.

(** [type(v).__name__] *)
Definition type_name (v : pyval) : string :=
  match v with
  | PNone => "NoneType"
  | PBool _ => "bool"
  | PInt _ => "int"
  | PFloat _ => "float"
  | PStr _ => "str"
  | PList _ => "list"
  | PDict _ => "dict"
  end.

(** [bool(v)] *)
Definition truthy (v : pyval) : bool :=
  match v with
  | PNone => false
  | PBool b => b
  | PInt n => negb (n =? 0)%Z
  | PFloat x => negb (x =? 0)%float
  | PStr s => PyStr.nonempty s
  | PList l => match l with [] => false | _ => true end
  | PDict d => match d with [] => false | _ => true end
  end.

(** [a or b], given the value of [a] and the (lazy) value of [b] *)
Definition or_else (a : pyval) (b : result pyval) : result pyval :=
  if truthy a then Ok a else b.

(** [a or b] when evaluating [b] cannot raise *)
Definition or_val (a b : pyval) : pyval := if truthy a then a else b.

(** [d[k]] if present *)
Fixpoint lookup (k : string) (d : pydict) : option pyval :=
  match d with
  | [] => None
  | (k', v) :: d' => if String.eqb k k' then Some v else lookup k d'
  end.

(** [d.get(k, dflt)] and [d.get(k)] on a [dict] *)
Definition get (d : pydict) (k : string) (dflt : pyval) : pyval :=
  default dflt (lookup k d).
Definition get_none (d : pydict) (k : string) : pyval := get d k PNone.

Definition no_attribute {A} (v : pyval) (attr : string) : result A :=
  Raise (AttributeError ("'" +:+ type_name v +:+ "' object has no attribute '" +:+ attr +:+ "'")).

(** [v.get(k, dflt)] on a value of unknown type *)
Definition attr_get (v : pyval) (k : string) (dflt : pyval) : result pyval :=
  match v with
  | PDict d => Ok (get d k dflt)
  | _ => no_attribute v "get"
  end.

(** A string method applied to a value of unknown type: only [str] has it. *)
Definition str_method (attr : string) (f : string -> string) (v : pyval) : result string :=
  match v with
  | PStr s => Ok (f s)
  | _ => no_attribute v attr
  end.

(** [v.endswith((...))] *)
Definition attr_endswith (sufs : list string) (v : pyval) : result bool :=
  match v with
  | PStr s => Ok (PyStr.endswith_any sufs s)
  | _ => no_attribute v "endswith"
  end.

(** [v >= n] for an [int] constant [n] that a double represents exactly
    (so that comparing with the double [n] is the exact comparison
    Python makes between a [float] and an [int]). *)
Definition ge_int (v : pyval) (n : Z) : result bool :=
  match v with
  | PInt m => Ok (n <=? m)%Z
  | PBool b => Ok (n <=? (if b then 1 else 0))%Z
  | PFloat x => Ok (PyFloat.ge x (PrimFloat.of_uint63 (Uint63.of_Z n)))
  | _ => Raise (TypeError ("'>=' not supported between instances of '"
                           +:+ type_name v +:+ "' and 'int'"))
  end.

(** [str(v)], as an f-string renders a value *)
Definition str (F : text_format) (v : pyval) : string :=
  match v with
  | PStr s => s
  | PNone => "None"
  | PBool true => "True"
  | PBool false => "False"
  | PInt n => pretty n
  | _ => str_other F v
  end.

End Py.

(* ================================================================== *)
(** ** The state record (graph/state.py)

    [LeadState] is a [TypedDict] with [total=False]: a dict whose keys
    may be absent.  The store below maps each key to its value, at the
    type the source gives it; [summary] and the three nurture keys are
    the ones the stages add beyond the declared ones.  [owner] holds a
    string when set: an absent key and [None] read the same everywhere
    ([state.get("owner")]). *)

Inductive key : Set :=
| k_lead_id | k_raw | k_normalized | k_enrichment | k_score | k_score_reasons
| k_owner | k_route_reason | k_similar_accounts | k_crm_record_id
| k_notifications | k_errors | k_decided_path
| k_summary | k_nurture_data | k_nurture_task | k_email_sequence.

#[export] Instance key_eq_dec : EqDecision key.
Proof. solve_decision. Defined.

Definition value_of (k : key) : Type :=
  match k with
  | k_lead_id => pyval
  | k_raw | k_normalized | k_enrichment => pydict
  | k_score => float
  | k_score_reasons | k_notifications | k_errors => list string
  | k_owner | k_route_reason | k_decided_path | k_summary => string
  | k_similar_accounts => list pydict
  | k_crm_record_id => pyval
  | k_nurture_data | k_nurture_task | k_email_sequence => pydict
  end.

(** [writes] is ghost: the keys written so far, oldest first.  Nothing in
    the program reads it. *)
Record LeadState : Type := {
  fields : forall k : key, option (value_of k);
  writes : list key
}.

(** [state.get(k)] *)
Definition get (k : key) (st : LeadState) : option (value_of k) := fields st k.

(** [state[k] = v] *)
Definition set (k : key) (v : value_of k) (st : LeadState) : LeadState :=
  {| fields := fun k' =>
       match decide (k = k') with
       | left e => Some (eq_rect k value_of v k' e)
       | right _ => fields st k'
       end;
     writes := writes st ++ [k] |}.

(** [state.setdefault("errors", []).append(msg)] *)
Definition append_error (msg : string) (st : LeadState) : LeadState :=
  set k_errors (default [] (get k_errors st) ++ [msg]) st.

(** How many times [k] has been written. *)
Definition write_count (k : key) (st : LeadState) : nat :=
  length (filter (fun k' => k' = k) (writes st)).

(** A dict holding nothing. *)
Definition empty_state : LeadState :=
  {| fields := fun _ => None; writes := [] |}.

(** The record the ingress builds for an admitted submission (app.py,
    [initial_state]). *)
Definition initial_state (payload : pydict) : LeadState :=
  {| fields := fun k =>
       match k with
       | k_raw => Some payload
       | k_errors => Some []
       | k_notifications => Some []
       | k_score_reasons => Some []
       | _ => None
       end;
     writes := [] |}.

(* ================================================================== *)
(** ** The collaborators and the environment of a run

    The stages call the enrichment provider, the scoring and summarising
    model, the CRM and the similarity index through module-level
    functions of [tools/]; a stage sees of each call only whether it
    returns or raises.  A run also reads the routing configuration file. *)

(** What reading the file at [ROUTING_CONFIG_PATH] yields. *)
Inductive config_file : Type :=
| FileMissing                               (* open() raises FileNotFoundError *)
| InvalidJson                               (* json.load raises JSONDecodeError *)
| JsonTable (table : gmap string string)    (* the mapping the file holds *)
| ReadFails (e : exn).                      (* any other exception of open()/json.load *)

Record collaborators : Type := {
  enrich_domain_person : pyval -> pyval -> result pydict;
  score_lead_with_rubric : LeadState -> float -> result (float * list string);
  find_owner_by_rules : pydict -> pydict -> gmap string string -> result string;
  create_or_update_contact : LeadState -> result (option pydict);
  similar_accounts : LeadState -> result (list pydict);
  summarize_for_ae : LeadState -> list pydict -> result string;
  routing_config : config_file
}.

(* ================================================================== *)
(** ** The capture stage (graph/nodes/capture.py) *)

Section Capture.

Local Open Scope string_scope.
Variable F : text_format.

Definition REQUIRED_FIELDS : list string := ["email"; "company"; "full_name"].

(** [(raw.get("email") or raw.get("properties", {}).get("email", {}).get("value", "")).lower()] *)
Definition capture_email (raw : pydict) : result string :=
  v ← Py.or_else (Py.get_none raw "email")
        (e ← Py.attr_get (Py.get raw "properties" (PDict [])) "email" (PDict []);
         Py.attr_get e "value" (PStr ""));
  Py.str_method "lower" PyStr.lower v.

(** [raw.get("company") or raw.get("company_name") or raw.get("properties", {}).get("company")] *)
Definition capture_company (raw : pydict) : result pyval :=
  Py.or_else (Py.get_none raw "company")
    (Py.or_else (Py.get_none raw "company_name")
       (Py.attr_get (Py.get raw "properties" (PDict [])) "company" PNone)).

(** [(raw.get("website") or raw.get("domain") or "").replace("https://", "").replace("http://", "").split("/")[0]] *)
Definition capture_domain (raw : pydict) : result string :=
  Py.str_method "replace"
    (fun s => PyStr.before_first "/"
                (PyStr.replace "http://" "" (PyStr.replace "https://" "" s)))
    (Py.or_val (Py.get_none raw "website") (Py.or_val (Py.get_none raw "domain") (PStr ""))).

(** [raw.get("full_name") or f"{raw.get('first_name','')} {raw.get('last_name','')}".strip()] *)
Definition capture_full_name (raw : pydict) : pyval :=
  let a := Py.get_none raw "full_name" in
  if Py.truthy a then a
  else PStr (PyStr.strip (Py.str F (Py.get raw "first_name" (PStr "")) +:+ " "
                          +:+ Py.str F (Py.get raw "last_name" (PStr "")))).

(** The [normalized] dict literal. *)
Definition normalized_dict (raw : pydict) (email : string) (company : pyval)
    (domain : string) : pydict :=
  [("email", PStr email);
   ("company", company);
   ("domain", PStr domain);
   ("full_name", capture_full_name raw);
   ("country", Py.get_none raw "country");
   ("title", Py.get_none raw "title");
   ("source", Py.get_none raw "source")].

(** [[field for field in REQUIRED_FIELDS if not normalized.get(field)]] *)
Definition missing_fields (normalized : pydict) : list string :=
  List.filter (fun field => negb (Py.truthy (Py.get_none normalized field))) REQUIRED_FIELDS.

Definition missing_fields_error (missing : list string) : string :=
  "Missing required fields: " +:+ PyStr.repr_list missing.

(** [capture(state)].  Every expression that can raise is evaluated
    before the first assignment to [state], so an exception leaves the
    record as it was. *)
Definition capture (st : LeadState) : result LeadState :=
  let raw := default [] (get k_raw st) in
  email ← capture_email raw;
  company ← capture_company raw;
  domain ← capture_domain raw;
  let normalized := normalized_dict raw email company domain in
  let missing := missing_fields normalized in
  let st1 := match missing with
             | [] => st
             | _ => append_error (missing_fields_error missing) st
             end in
  let st2 := set k_normalized normalized st1 in
  Ok (set k_lead_id (Py.or_val (Py.get_none raw "id") (PStr email)) st2).

End Capture.

(* ================================================================== *)
(** ** The enrich stage (graph/nodes/enrich.py) *)

Section Stages.

Local Open Scope string_scope.
Variable F : text_format.
Variable C : collaborators.

Definition enrich (st : LeadState) : LeadState :=
  let norm := default [] (get k_normalized st) in
  if negb (Py.truthy (Py.get_none norm "domain"))
     && negb (Py.truthy (Py.get_none norm "email"))
  then set k_enrichment [] st
  else
    match enrich_domain_person C (Py.get_none norm "domain") (Py.get_none norm "email") with
    | Ok data => set k_enrichment data st
    | Raise e =>
        set k_enrichment [] (append_error ("Enrichment failed: " +:+ exn_str e) st)
    end.

(* ================================================================== *)
(** ** The score stage (graph/nodes/score.py) *)

Definition min_headcount : Z := 20.
Definition allowed_countries : list string := ["US"; "CA"; "UK"; "DE"; "FR"; "MA"].
Definition blocked_free_email : bool := true.
Definition icp_industries : list string :=
  ["saas"; "fintech"; "ecommerce"; "healthtech"; "edtech"].
Definition buying_roles : list string :=
  ["head"; "lead"; "director"; "vp"; "cxo"; "chief"; "manager"].
Definition free_domains : list string :=
  ["gmail.com"; "yahoo.com"; "outlook.com"; "hotmail.com"].

Definition mem (s : string) (l : list string) : bool :=
  existsb (String.eqb s) l.

(** [score += d] when [b] *)
Definition add_if (b : bool) (d : float) (score : float) : float :=
  if b then (score + d)%float else score.

(** [rule_score(state)]: it raises when the enrichment or the normalized
    fields hold a value of the wrong type. *)
Definition rule_score (st : LeadState) : result float :=
  let e := default [] (get k_enrichment st) in
  let norm := default [] (get k_normalized st) in
  let score := 0%float in
  (* Headcount scoring *)
  headcount ← Py.attr_get (Py.get e "company" (PDict [])) "employees" (PInt 0);
  big ← Py.ge_int headcount min_headcount;
  score ← (if big : bool
           then (bigger ← Py.ge_int headcount 100;
                 Ok (add_if bigger 0.1 (score + 0.3)%float))
           else Ok score);
  (* Industry scoring (ICP) *)
  industry ← (v ← Py.attr_get (Py.get e "company" (PDict [])) "industry" (PStr "");
              Py.str_method "lower" PyStr.lower v);
  let score := add_if (mem industry icp_industries) 0.2 score in
  (* Title scoring (buying authority) *)
  title ← Py.str_method "lower" PyStr.lower (Py.or_val (Py.get_none norm "title") (PStr ""));
  let score := add_if (existsb (fun role => PyStr.contains role title) buying_roles) 0.2 score in
  (* Country scoring *)
  country ← Py.str_method "upper" PyStr.upper (Py.or_val (Py.get_none norm "country") (PStr ""));
  let score := add_if (mem country allowed_countries) 0.1 score in
  (* Free email penalty *)
  score ← (if blocked_free_email
           then (free ← Py.attr_endswith free_domains (Py.get norm "email" (PStr ""));
                 Ok (if free : bool then (score - 0.4)%float else score))
           else Ok score);
  (* Technology stack bonus *)
  tech_stack ← Py.attr_get (Py.get e "company" (PDict [])) "tech" (PList []);
  let score := add_if (Py.truthy tech_stack) 0.1 score in
  Ok (PyFloat.clamp01 score).

(** [score(state)]: the rule scorer runs outside the [try], the model
    scorer inside it. *)
Definition score (st : LeadState) : result LeadState :=
  base_score ← rule_score st;
  match score_lead_with_rubric C st base_score with
  | Ok (llm_score, reasons) =>
      let final_score := PyFloat.clamp01 (0.5 * base_score + 0.5 * llm_score)%float in
      Ok (set k_score_reasons reasons (set k_score final_score st))
  | Raise e =>
      let st1 := append_error ("LLM scoring failed: " +:+ exn_str e) st in
      Ok (set k_score_reasons ["Rule-based scoring only (LLM failed)"]
            (set k_score base_score st1))
  end.

(* ================================================================== *)
(** ** The branch decision (app.py, [build_workflow]) *)

(** The nodes a conditional edge can select. *)
Inductive node : Set := node_route | node_nurture | node_summarize.

(** [bool(owner)] for [owner = state.get("owner")] *)
Definition owner_set (st : LeadState) : bool :=
  match get k_owner st with
  | Some o => PyStr.nonempty o
  | None => false
  end.

(** [branch_decision(state)]: the state it leaves and the node it
    names.  [state.get("score", 0)] is the int [0] when the key is
    absent; it compares like the double [0.0]. *)
Definition branch_decision (st : LeadState) : LeadState * node :=
  let score_val := default 0%float (get k_score st) in
  if PyFloat.ge score_val 0.7 && owner_set st then (st, node_route)
  else if PyFloat.lt score_val 0.4 then (set k_decided_path "nurture" st, node_nurture)
  else (set k_decided_path "manual_review" st, node_summarize).

(* ================================================================== *)
(** ** The route stage (graph/nodes/route.py) *)

Definition default_routes : gmap string string :=
  <["US" := "us-team@company.com"]>
    (<["CA" := "canada-team@company.com"]>
       (<["UK" := "emea-team@company.com"]>
          (<["DEFAULT" := "general@company.com"]> ∅))).

(** [load_routing_rules()]: only [FileNotFoundError] and
    [JSONDecodeError] are handled. *)
Definition load_routing_rules (cfg : config_file) : result (gmap string string) :=
  match cfg with
  | FileMissing => Ok default_routes
  | InvalidJson => Ok (<["DEFAULT" := "general@company.com"]> ∅)
  | JsonTable table => Ok table
  | ReadFails e => Raise e
  end.

(** [routes.get("DEFAULT", "unassigned@company.com")] *)
Definition default_owner (routes : gmap string string) : string :=
  default "unassigned@company.com" (routes !! "DEFAULT").

(** The handler of the outer [try]: it loads the rules again, outside
    any [try]. *)
Definition route_fallback (e : exn) (st : LeadState) : result LeadState :=
  let st1 := append_error ("Routing failed: " +:+ exn_str e) st in
  routes ← load_routing_rules (routing_config C);
  Ok (set k_route_reason "Fallback to default owner due to routing error"
        (set k_owner (default_owner routes) st1)).

(** [crm_record.get("id") if crm_record else None] *)
Definition crm_id (crm_record : option pydict) : pyval :=
  match crm_record with
  | Some d => match d with [] => PNone | _ :: _ => Py.get_none d "id" end
  | None => PNone
  end.

(** The arrow of the reason text, U+2192 in UTF-8. *)
Definition arrow : string :=
  String (ascii_of_N 226) (String (ascii_of_N 134) (String (ascii_of_N 146) "")).

Definition route (st : LeadState) : result LeadState :=
  match load_routing_rules (routing_config C) with
  | Raise e => route_fallback e st
  | Ok routes =>
      match find_owner_by_rules C (default [] (get k_normalized st))
                                  (default [] (get k_enrichment st)) routes with
      | Raise e => route_fallback e st
      | Ok owner =>
          let st1 := set k_owner owner st in
          let st2 :=
            match create_or_update_contact C st1 with
            | Ok crm_record => set k_crm_record_id (crm_id crm_record) st1
            | Raise e =>
                set k_crm_record_id PNone
                  (append_error ("CRM operation failed: " +:+ exn_str e) st1)
            end in
          let country := Py.get (default [] (get k_normalized st2)) "country" (PStr "unknown") in
          Ok (set k_route_reason
                ("Matched territory " +:+ Py.str F country +:+ " " +:+ arrow +:+ " " +:+ owner)
                st2)
      end
  end.

(* ================================================================== *)
(** ** The summarize stage (graph/nodes/summarize.py) *)

Definition fallback_summary (st : LeadState) : string :=
  let norm := default [] (get k_normalized st) in
  "Lead: " +:+ Py.str F (Py.get_none norm "full_name")
  +:+ " from " +:+ Py.str F (Py.get_none norm "company")
  +:+ " (Score: " +:+ format_2f F (default 0%float (get k_score st)) +:+ ")".

Definition summarize (st : LeadState) : LeadState :=
  match similar_accounts C st with
  | Raise e =>
      set k_summary "Summary generation failed"
        (set k_similar_accounts []
           (append_error ("Summarization failed: " +:+ exn_str e) st))
  | Ok similar_accounts_list =>
      let st1 := set k_similar_accounts similar_accounts_list st in
      match summarize_for_ae C st1 similar_accounts_list with
      | Ok summary => set k_summary summary st1
      | Raise e =>
          let st2 := append_error ("LLM summarization failed: " +:+ exn_str e) st1 in
          set k_summary (fallback_summary st2) st2
      end
  end.

(* ================================================================== *)
(** ** The nurture stage (graph/nodes/nurture.py)

    Nothing in its [try] block can raise on a [LeadState], so its
    handler is never entered. *)

Definition nurture (st : LeadState) : LeadState :=
  let st1 := set k_decided_path "nurture" st in
  let nurture_data : pydict :=
    [("sequence_name", PStr "low_score_nurture");
     ("entry_date", PStr "now");
     ("revisit_date", PStr "30_days");
     ("score", match get k_score st1 with Some x => PFloat x | None => PInt 0 end);
     ("reasons", PList (PStr <$> default [] (get k_score_reasons st1)))] in
  let st2 := set k_nurture_data nurture_data st1 in
  let task_data : pydict :=
    [("type", PStr "nurture_followup");
     ("due_date", PStr "30_days");
     ("description",
      PStr ("Re-evaluate lead " +:+ Py.str F (default PNone (get k_lead_id st2))
            +:+ " after nurturing period"));
     ("assigned_to", PStr "marketing@company.com")] in
  let st3 := set k_nurture_task task_data st2 in
  let email_sequence : pydict :=
    [("sequence", PStr "low_score_education");
     ("emails",
      PList [PDict [("day", PInt 1); ("subject", PStr "Welcome to our community")];
             PDict [("day", PInt 7); ("subject", PStr "Industry insights and trends")];
             PDict [("day", PInt 21);
                    ("subject", PStr "Case study: How we helped similar companies")]])] in
  set k_email_sequence email_sequence st3.

(* ================================================================== *)
(** ** The workflow (app.py, [build_workflow])

    The graph is [capture -> enrich -> score], the conditional edge out
    of [score], then [route -> summarize], [nurture] or [summarize].  A
    node receives the record its predecessor left; an exception that a
    node lets out ends the run. *)

(** The part of a run after the score stage. *)
Definition after_score (st : LeadState) : result LeadState :=
  match branch_decision st with
  | (st1, node_route) => st2 ← route st1; Ok (summarize st2)
  | (st1, node_nurture) => Ok (nurture st1)
  | (st1, node_summarize) => Ok (summarize st1)
  end.

Definition run_workflow (st : LeadState) : result LeadState :=
  st1 ← capture F st;
  st2 ← score (enrich st1);
  after_score st2.

End Stages.

(* ================================================================== *)
(** ** The idempotency guard (tools/idempotency.py) *)

Module Idem.

Local Open Scope string_scope.
Local Open Scope Z_scope.

(** The Redis server as [SET name value EX ttl NX] sees it: the names it
    holds, each with its value and the time (in seconds) at which it
    expires.  An entry past its expiry counts as absent. *)
Abbreviation redis_db := (gmap string (Z * Z)).

Definition live (db : redis_db) (now : Z) (name : string) : bool :=
  match db !! name with
  | Some (_, expiry) => now <? expiry
  | None => false
  end.

(** [r.set(name, value, ex=ttl, nx=True)]: [True] when the name was set,
    [None] (here [false]) when a live entry holds it; the server refuses
    an expiry that is not positive, and the client raises. *)
Definition redis_set_nx (db : redis_db) (now : Z) (name : string) (value ttl : Z)
    : result (bool * redis_db) :=
  if ttl <=? 0 then Raise (Exception "invalid expire time in 'set' command")
  else if live db now name then Ok (false, db)
  else Ok (true, <[name := (value, now + ttl)]> db).

(** [r.delete(name)]: the number of entries removed. *)
Definition redis_delete (db : redis_db) (now : Z) (name : string) : Z * redis_db :=
  (if live db now name then 1 else 0, delete name db).

(** The guard object: [self.r] is the Redis client or [None]; the set
    [self._memory_keys] exists (and is used) only when it is [None]. *)
Record t : Type := {
  r : option redis_db;
  _memory_keys : gset string
}.

(** [Idem()]: the outcome of connecting and pinging decides the tier. *)
Definition init (connect : result redis_db) : t :=
  match connect with
  | Ok db => {| r := Some db; _memory_keys := ∅ |}
  | Raise _ => {| r := None; _memory_keys := ∅ |}
  end.

(** What one call meets: the clock, and whether the Redis command raises
    (a lost connection). *)
Record call : Type := {
  now : Z;
  store_error : option exn
}.

Definition idem_name (key : string) : string := "idem:" +:+ key.

(** [check_and_set(key, ttl)]: the answer and the guard afterwards. *)
Definition check_and_set (self : t) (c : call) (key : string) (ttl : Z) : bool * t :=
  if negb (PyStr.nonempty key) then (false, self)
  else
    match r self with
    | Some db =>
        match store_error c with
        | Some _ => (true, self)                         (* fail open *)
        | None =>
            match redis_set_nx db (now c) (idem_name key) (now c) ttl with
            | Ok (result, db') =>
                (result, {| r := Some db'; _memory_keys := _memory_keys self |})
            | Raise _ => (true, self)                    (* fail open *)
            end
        end
    | None =>
        if decide (key ∈ _memory_keys self) then (false, self)
        else (true, {| r := None; _memory_keys := {[key]} ∪ _memory_keys self |})
    end.

(** [clear_key(key)] *)
Definition clear_key (self : t) (c : call) (key : string) : bool * t :=
  match r self with
  | Some db =>
      match store_error c with
      | Some _ => (false, self)
      | None =>
          let '(n, db') := redis_delete db (now c) (idem_name key) in
          (negb (n =? 0), {| r := Some db'; _memory_keys := _memory_keys self |})
      end
  | None => (true, {| r := None; _memory_keys := _memory_keys self ∖ {[key]} |})
  end.

(** [key] is not held by the guard at time [now]. *)
Definition fresh (self : t) (now : Z) (key : string) : Prop :=
  match r self with
  | Some db => live db now (idem_name key) = false
  | None => key ∉ _memory_keys self
  end.

(** A call that finds the store working, at time [now]. *)
Definition at_time (now : Z) : call := {| now := now; store_error := None |}.

(** A series of calls [(c, key, ttl)] made one after the other. *)
Fixpoint run (self : t) (calls : list (call * string * Z)) : t :=
  match calls with
  | [] => self
  | (c, key, ttl) :: rest => run (check_and_set self c key ttl).2 rest
  end.

(** The default of the [ttl] argument. *)
Definition default_ttl : Z := 3600.

End Idem.

(* ================================================================== *)
(** ** Concrete runs

    A rendering and a set of collaborators for evaluating the stages on
    examples: the rendering is never consulted on the values of these
    examples, and every collaborator fails unless an example replaces
    it. *)

Definition plain_format : text_format :=
  {| str_other := fun _ => "<object>"%string;
     format_2f := fun _ => "<number>"%string |}.

Definition failing (msg : string) : collaborators :=
  {| enrich_domain_person := fun _ _ => Raise (Exception msg);
     score_lead_with_rubric := fun _ _ => Raise (Exception msg);
     find_owner_by_rules := fun _ _ _ => Raise (Exception msg);
     create_or_update_contact := fun _ => Raise (Exception msg);
     similar_accounts := fun _ => Raise (Exception msg);
     summarize_for_ae := fun _ _ => Raise (Exception msg);
     routing_config := FileMissing |}.

(** [C] with an enrichment provider that returns [data] and a model
    scorer that returns [(llm_score, reasons)]. *)
Definition answering (data : pydict) (llm_score : float) (reasons : list string)
    (C : collaborators) : collaborators :=
  {| enrich_domain_person := fun _ _ => Ok data;
     score_lead_with_rubric := fun _ _ => Ok (llm_score, reasons);
     find_owner_by_rules := find_owner_by_rules C;
     create_or_update_contact := create_or_update_contact C;
     similar_accounts := similar_accounts C;
     summarize_for_ae := summarize_for_ae C;
     routing_config := routing_config C |}.

(** Scenario A of the specification. *)
Definition scenario_A_payload : pydict :=
  [("email", PStr "j@acme.com"); ("company", PStr "Acme"); ("full_name", PStr "J Doe");
   ("title", PStr "Director"); ("country", PStr "US")]%string.

Definition scenario_A_enrichment : pydict :=
  [("company", PDict [("employees", PInt 150); ("industry", PStr "saas")])]%string.

(** Scenario B of the specification: a free-mail address, and every
    collaborator failing. *)
Definition scenario_B_payload : pydict :=
  [("email", PStr "j@gmail.com"); ("company", PStr "Acme"); ("full_name", PStr "J Doe");
   ("title", PStr "Director"); ("country", PStr "US")]%string.

Section ScenarioA.

Variable F : text_format.
Variable C : collaborators.
Variable reasons : list string.

(** The collaborators of scenario A: the enrichment provider answers
    with a headcount of 150 and the industry "saas", the model scorer
    with [0.85]. *)
Definition scenario_A_collaborators : collaborators :=
  answering scenario_A_enrichment 0.85%float reasons C.

(** The state of scenario A when it reaches the score stage. *)
Definition scenario_A_before_score : result LeadState :=
  st ← capture F (initial_state scenario_A_payload);
  Ok (enrich scenario_A_collaborators st).

(** The rule score of scenario A and the score its score stage stores. *)
Definition scenario_A_rule_score : result float :=
  st ← scenario_A_before_score; rule_score st.

Definition scenario_A_final_score : result (option float) :=
  st ← scenario_A_before_score;
  st' ← score scenario_A_collaborators st;
  Ok (get k_score st').

End ScenarioA.

(** The run of scenario B through the whole workflow. *)
Definition scenario_B_run : result LeadState :=
  run_workflow plain_format (failing "down") (initial_state scenario_B_payload).

(** [st'] holds the payload of [st], and no write to [raw] separates
    them. *)
Definition raw_untouched (st st' : LeadState) : Prop :=
  get k_raw st' = get k_raw st /\ write_count k_raw st' = write_count k_raw st.

(* ================================================================== *)
(** ** Footprints and the error log *)

(** [st'] holds for [k] what [st] holds, and no write to [k] separates
    them. *)
Definition untouched (k : key) (st st' : LeadState) : Prop :=
  get k st' = get k st /\ write_count k st' = write_count k st.

(** [state.get("errors", [])] *)
Definition errors_of (st : LeadState) : list string := default [] (get k_errors st).

(** [st'] has the errors of [st], in order, followed by at most [n] new
    ones. *)
Definition errors_extended (n : nat) (st st' : LeadState) : Prop :=
  exists new, errors_of st' = errors_of st ++ new /\ (length new <= n)%nat.

(** The keys each stage assigns or appends to. *)
Definition capture_keys : list key := [k_errors; k_normalized; k_lead_id].
Definition enrich_keys : list key := [k_errors; k_enrichment].
Definition score_keys : list key := [k_errors; k_score; k_score_reasons].
Definition route_keys : list key := [k_errors; k_owner; k_crm_record_id; k_route_reason].
Definition summarize_keys : list key := [k_errors; k_similar_accounts; k_summary].
Definition nurture_keys : list key :=
  [k_decided_path; k_nurture_data; k_nurture_task; k_email_sequence].

(* ================================================================== *)
(** ** Runs started by the ingress *)

Section Ingress.

Variable F : text_format.
Variable C : collaborators.

(** The state that reaches the branch decision in a run started by the
    ingress on [payload]. *)
Definition scored (payload : pydict) : result LeadState :=
  st1 ← capture F (initial_state payload); score C (enrich C st1).

End Ingress.

(** The run of scenario A through the whole workflow. *)
Definition scenario_A_run : result LeadState :=
  run_workflow plain_format (scenario_A_collaborators (failing "down") [])
    (initial_state scenario_A_payload).

(* ================================================================== *)
(** ** The guard's debugging aid (tools/idempotency.py) *)

Module IdemDebug.

Import Idem.
Local Open Scope Z_scope.

(** [r.get(name)]: the value of a live entry.  The value the guard
    stores is [int(time.time())], which Redis returns as its decimal
    text, never empty. *)
Definition redis_get (db : redis_db) (now : Z) (name : string) : option Z :=
  match db !! name with
  | Some (value, expiry) => if now <? expiry then Some value else None
  | None => None
  end.

(** [get_processing_time(key)] *)
Definition get_processing_time (self : t) (c : call) (key : string) : Z :=
  match r self with
  | Some db =>
      match store_error c with
      | Some _ => 0
      | None => default 0 (redis_get db (now c) (idem_name key))
      end
  | None => 0
  end.

End IdemDebug.

(* ================================================================== *)
(** ** The model client (tools/llm.py): scoring *)

Module LLM.

Section Client.

Local Open Scope string_scope.
Variable F : text_format.

(** [_mock_scoring(state, base_hint)] *)
Definition _mock_scoring (st : LeadState) (base_hint : float)
    : result (float * list string) :=
  let normalized := default [] (get k_normalized st) in
  let enrichment := default [] (get k_enrichment st) in
  let reasons : list string := [] in
  let score := base_hint in
  industry ← Py.attr_get (Py.get enrichment "company" (PDict [])) "industry" PNone;
  let reasons :=
    if Py.truthy industry then (reasons ++ ["ICP match: " +:+ Py.str F industry])%list
    else reasons in
  let score := if Py.truthy industry then (score + 0.1)%float else score in
  employees ← Py.attr_get (Py.get enrichment "company" (PDict [])) "employees" (PInt 0);
  enterprise ← Py.ge_int employees 100;
  let reasons :=
    if enterprise : bool then (reasons ++ ["Enterprise size company"])%list else reasons in
  let score := if enterprise then (score + 0.1)%float else score in
  title ← Py.str_method "lower" PyStr.lower
            (Py.or_val (Py.get_none normalized "title") (PStr ""));
  let senior := existsb (fun t => PyStr.contains t title) ["director"; "vp"; "cxo"] in
  let reasons :=
    if senior then (reasons ++ ["Senior decision maker"])%list else reasons in
  let score := if senior then (score + 0.1)%float else score in
  let score := PyFloat.clamp01 score in
  let reasons := match reasons with [] => ["Basic qualification met"] | _ => reasons end in
  Ok (score, reasons).

(** [score_lead_with_rubric(state, base_hint)].  [api] is [None] when no
    API key is configured; otherwise it is the outcome of the [try] block:
    the score and reasons parsed from the model's answer, or the
    exception raised on the way (request, parsing, prompt building). *)
Definition score_lead_with_rubric (api : option (result (float * list string)))
    (st : LeadState) (base_hint : float) : result (float * list string) :=
  match api with
  | None => _mock_scoring st base_hint
  | Some (Ok answer) => Ok answer
  | Some (Raise _) => _mock_scoring st base_hint
  end.

(** Collaborators whose model scorer is this client. *)
Definition with_client (api : option (result (float * list string)))
    (C : collaborators) : collaborators :=
  Build_collaborators
    (enrich_domain_person C)
    (score_lead_with_rubric api)
    (find_owner_by_rules C)
    (create_or_update_contact C)
    (similar_accounts C)
    (summarize_for_ae C)
    (routing_config C).

End Client.

End LLM.

(* ================================================================== *)
(** ** The similarity index (tools/pinecone_store.py): the query vector *)

Module Pinecone.

Local Open Scope string_scope.

(** The dict of features, with the types its entries have:
    [industry] and [country] are results of [str] methods, the other two
    are whatever the enrichment holds. *)
Record features : Type := {
  industry : string;
  headcount : pyval;
  tech_stack : pyval;
  country : string
}.

(** [_extract_company_features(state)] *)
Definition _extract_company_features (st : LeadState) : result features :=
  let enrichment := default [] (get k_enrichment st) in
  let company := Py.get enrichment "company" (PDict []) in
  industry ← (v ← Py.attr_get company "industry" (PStr "");
              Py.str_method "lower" PyStr.lower v);
  headcount ← Py.attr_get company "employees" (PInt 0);
  tech_stack ← Py.attr_get company "tech" (PList []);
  country ← Py.str_method "upper" PyStr.upper
              (Py.get (default [] (get k_normalized st)) "country" (PStr ""));
  Ok {| industry := industry; headcount := headcount;
        tech_stack := tech_stack; country := country |}.

(** [v > n] for an [int] constant [n] that a double represents exactly *)
Definition gt_int (v : pyval) (n : Z) : result bool :=
  match v with
  | PInt m => Ok (n <? m)%Z
  | PBool b => Ok (n <? (if b then 1 else 0))%Z
  | PFloat x => Ok (PyFloat.lt (PrimFloat.of_uint63 (Uint63.of_Z n)) x)
  | _ => Raise (TypeError ("'>' not supported between instances of '"
                           +:+ Py.type_name v +:+ "' and 'int'"))
  end.

(** The dimension of the vector. *)
Definition dimension : nat := 1536.

(** [_create_embedding_vector(features)] *)
Definition _create_embedding_vector (f : features) : result (list float) :=
  let vector := replicate dimension 0%float in
  let vector := if PyStr.nonempty (industry f) then <[0%nat := 0.1%float]> vector
                else vector in
  large ← gt_int (headcount f) 100;
  let vector := if large : bool then <[1%nat := 0.2%float]> vector else vector in
  let vector := if Py.truthy (tech_stack f) then <[2%nat := 0.1%float]> vector
                else vector in
  let vector := if String.eqb (country f) "US" then <[3%nat := 0.1%float]> vector
                else vector in
  Ok vector.

End Pinecone.

(* ================================================================== *)
(** ** Shapes of a URL (for [capture]'s domain expression) *)

(** The character [c] does not occur in [s]. *)
Definition no_char (c : ascii) (s : string) : Prop :=
  PyStr.contains (String c "") s = false.

(** What follows the host in a URL: nothing, or a path starting with "/". *)
Definition path_like (rest : string) : Prop :=
  rest = ""%string \/ exists p, rest = String "/" p.

(* ================================================================== *)
(** ** The enrichment provider (tools/clearbit.py) *)

Module Clearbit.

Section Enricher.

Local Open Scope string_scope.
Variable F : text_format.

(** What the enricher meets outside the program: whether
    [CLEARBIT_API_KEY] is set to a non-empty string; the exception, if
    any, with which [loop.run_until_complete] refuses to run a coroutine
    (asyncio does when the thread already runs an event loop); and, per
    argument, the outcome of the two requests ([client.get],
    [raise_for_status] and [response.json()]). *)
Record service : Type := {
  api_key : bool;
  loop_error : option exn;
  company_api : pyval -> result pyval;
  person_api : pyval -> result pyval
}.

(** [_mock_person_data(email)] *)
Definition _mock_person_data (email : pyval) : pyval :=
  PDict [("person",
          PDict [("email", email);
                 ("name", PDict [("fullName", PStr "Mock Person")]);
                 ("employment", PDict [("title", PStr "Director of Engineering");
                                       ("seniority", PStr "director")]);
                 ("location", PDict [("country", PStr "US")])])].

(** [_mock_company_data(domain)] *)
Definition _mock_company_data (domain : pyval) : pyval :=
  PDict [("company",
          PDict [("domain", domain);
                 ("name", PStr ("Mock Company (" +:+ Py.str F domain +:+ ")"));
                 ("employees", PInt 120);
                 ("industry", PStr "SaaS");
                 ("category", PDict [("industry", PStr "Technology")]);
                 ("tech", PList [PStr "AWS"; PStr "Snowflake"; PStr "Python"]);
                 ("location", PDict [("country", PStr "US")])])].

Variable S : service.

(** [enrich_person(email)] and [enrich_company(domain)]: the coroutines'
    results; neither lets an exception out. *)
Definition enrich_person (email : pyval) : pyval :=
  if negb (api_key S) then _mock_person_data email
  else match person_api S email with
       | Ok answer => answer
       | Raise _ => _mock_person_data email
       end.

Definition enrich_company (domain : pyval) : pyval :=
  if negb (api_key S) then _mock_company_data domain
  else match company_api S domain with
       | Ok answer => answer
       | Raise _ => _mock_company_data domain
       end.

(** [loop.run_until_complete(coro)], given the coroutine's result *)
Definition run_until_complete (v : pyval) : result pyval :=
  match loop_error S with
  | Some e => Raise e
  | None => Ok v
  end.

(** The dict of the [except] branch. *)
Definition fallback_data (domain email : pyval) : pydict :=
  [("company", PDict [("domain", domain); ("employees", PInt 100);
                      ("industry", PStr "Technology")]);
   ("person", PDict [("email", email); ("seniority", PStr "manager")]);
   ("enrichment_source", PStr "fallback")].

(** [enrich_domain_person(domain, email)] *)
Definition enrich_domain_person (domain email : pyval) : result pydict :=
  let attempt : result pydict :=
    company_data ← (if Py.truthy domain then run_until_complete (enrich_company domain)
                    else Ok (PDict []));
    person_data ← (if Py.truthy email then run_until_complete (enrich_person email)
                   else Ok (PDict []));
    company ← Py.attr_get company_data "company" (PDict []);
    person ← Py.attr_get person_data "person" (PDict []);
    Ok [("company", company); ("person", person);
        ("enrichment_source", PStr (if api_key S then "clearbit" else "mock"))] in
  match attempt with
  | Ok enrichment => Ok enrichment
  | Raise _ => Ok (fallback_data domain email)
  end.

(** Collaborators whose enrichment provider is this one. *)
Definition with_enricher (C : collaborators) : collaborators :=
  Build_collaborators
    enrich_domain_person
    (score_lead_with_rubric C)
    (find_owner_by_rules C)
    (create_or_update_contact C)
    (similar_accounts C)
    (summarize_for_ae C)
    (routing_config C).

End Enricher.

(** No API key, and an event loop that runs. *)
Definition mock_service : service :=
  {| api_key := false; loop_error := None;
     company_api := fun _ => Raise (Exception "no request is made");
     person_api := fun _ => Raise (Exception "no request is made") |}.

End Clearbit.

(** The collaborators of a deployment without API keys for the enrichment
    provider and the model: both answer with their mock data. *)
Definition mock_mode (F : text_format) (C : collaborators) : collaborators :=
  Clearbit.with_enricher F Clearbit.mock_service (LLM.with_client F None C).
(* ================================================================== *)
(** * Properties *)

(** ** Floats: order facts, from the specification of the comparisons *)

Section FloatFacts.
Import PyFloat.
Local Open Scope float_scope.

Lemma SFcompare_antisym x y :
  SFcompare y x = option_map CompOpp (SFcompare x y).
Proof.
  destruct x as [sx|sx| |sx mx ex], y as [sy|sy| |sy my ey]; simpl;
    try reflexivity; try (destruct sx; reflexivity);
    try (destruct sy; reflexivity);
    try (destruct sx, sy; reflexivity).
  destruct sx, sy; simpl; try reflexivity;
    rewrite (Z.compare_antisym ex ey);
    destruct (ex ?= ey)%Z; simpl; try reflexivity;
    rewrite (Pos.compare_cont_antisym mx my Eq); simpl;
    try rewrite CompOpp_involutive; reflexivity.
Qed.

Lemma lt_le a b : lt a b = true -> le a b = true.
Proof.
  unfold lt, le. rewrite ltb_spec, leb_spec. unfold SFltb, SFleb.
  destruct (SFcompare _ _) as [[]|]; congruence.
Qed.

Lemma lt_not_ge a b : lt a b = true -> ge a b = false.
Proof.
  unfold lt, ge. rewrite ltb_spec, leb_spec. unfold SFltb, SFleb.
  rewrite (SFcompare_antisym (Prim2SF a) (Prim2SF b)).
  destruct (SFcompare (Prim2SF a) (Prim2SF b)) as [[]|]; simpl; congruence.
Qed.

Lemma ge_not_lt a b : ge a b = true -> lt a b = false.
Proof.
  intros H. destruct (lt a b) eqn:E; [|reflexivity].
  apply lt_not_ge in E. congruence.
Qed.

Lemma clamp01_cases x :
  clamp01 x = x /\ lt 0 x = true /\ lt x 1 = true
  \/ clamp01 x = 0 \/ clamp01 x = 1.
Proof.
  unfold clamp01, py_min, py_max, lt.
  destruct (x <? 1) eqn:E1.
  - destruct (0 <? x) eqn:E0; auto.
  - right. right. reflexivity.
Qed.

(** The clamp lands in the closed unit interval, whatever it is given
    (infinities and NaN included). *)
Lemma clamp01_range x : le 0 (clamp01 x) = true /\ le (clamp01 x) 1 = true.
Proof.
  destruct (clamp01_cases x) as [(-> & H0 & H1)|[-> | ->]].
  - split; apply lt_le; assumption.
  - split; reflexivity.
  - split; reflexivity.
Qed.

End FloatFacts.

(** ** Strings *)

Section StringFacts.
Import PyStr.
Local Open Scope string_scope.

Lemma lower_empty s : lower s = "" <-> s = "".
Proof. destruct s; unfold lower; simpl; split; congruence. Qed.

Lemma nonempty_lower s : nonempty (lower s) = nonempty s.
Proof. destruct s; reflexivity. Qed.

Example lower_ex : lower "Director of Engineering" = "director of engineering".
Proof. reflexivity. Qed.
Example upper_ex : upper "us" = "US".
Proof. reflexivity. Qed.
Example contains_ex : contains "director" "senior director, emea" = true.
Proof. reflexivity. Qed.
Example contains_no : contains "vp" "engineer" = false.
Proof. reflexivity. Qed.
Example endswith_ex : endswith "gmail.com" "j@gmail.com" = true.
Proof. reflexivity. Qed.
Example endswith_no : endswith "gmail.com" "j@acme.com" = false.
Proof. reflexivity. Qed.
Example replace_ex :
  before_first "/" (replace "http://" "" (replace "https://" "" "https://acme.com/pricing")) = "acme.com".
Proof. reflexivity. Qed.
Example strip_ex : strip "  J Doe " = "J Doe".
Proof. reflexivity. Qed.
Example strip_blank : strip " " = "".
Proof. reflexivity. Qed.
Example repr_list_ex : repr_list ["company"; "full_name"] = "['company', 'full_name']".
Proof. reflexivity. Qed.

End StringFacts.

(** ** The state record *)

Section StoreFacts.

Lemma get_set_eq k v st : get k (set k v st) = Some v.
Proof.
  unfold get, set; simpl. destruct (decide (k = k)) as [e|]; [|congruence].
  by rewrite (proof_irrel e eq_refl).
Qed.

Lemma get_set_ne k k' v st : k <> k' -> get k' (set k v st) = get k' st.
Proof. intros Hne. unfold get, set; simpl. by destruct (decide (k = k')). Qed.

Lemma get_append_error_ne k msg st :
  k <> k_errors -> get k (append_error msg st) = get k st.
Proof. intros Hne. unfold append_error. by rewrite get_set_ne. Qed.

Lemma get_append_error msg st :
  get k_errors (append_error msg st) = Some (default [] (get k_errors st) ++ [msg]).
Proof. unfold append_error. by rewrite get_set_eq. Qed.

Lemma write_count_set k k' v st :
  write_count k' (set k v st)
  = (write_count k' st + (if decide (k = k') then 1 else 0))%nat.
Proof.
  unfold write_count, set; simpl. rewrite filter_app, length_app.
  f_equal. rewrite filter_cons, filter_nil. by destruct (decide (k = k')).
Qed.

Lemma write_count_set_eq k v st :
  write_count k (set k v st) = S (write_count k st).
Proof. rewrite write_count_set. destruct (decide (k = k)); [lia|congruence]. Qed.

Lemma write_count_set_ne k k' v st :
  k <> k' -> write_count k' (set k v st) = write_count k' st.
Proof. intros Hne. rewrite write_count_set. destruct (decide (k = k')); [congruence|lia]. Qed.

Lemma write_count_append_error_ne k msg st :
  k <> k_errors -> write_count k (append_error msg st) = write_count k st.
Proof. intros Hne. unfold append_error. by rewrite write_count_set_ne. Qed.

End StoreFacts.

(** Rewriting a read or a write count through the writes of a stage. *)
Ltac store_simpl :=
  repeat first
    [ rewrite get_set_eq
    | rewrite get_set_ne by discriminate
    | rewrite get_append_error
    | rewrite get_append_error_ne by discriminate
    | rewrite write_count_set_eq
    | rewrite write_count_set_ne by discriminate
    | rewrite write_count_append_error_ne by discriminate ].

(** ** Results *)

Lemma bind_ok {A B} (m : result A) (f : A -> result B) (b : B) :
  (m ≫= f) = Ok b -> exists a, m = Ok a /\ f a = Ok b.
Proof. destruct m as [a|e]; simpl; [eauto|discriminate]. Qed.

Lemma bind_raise {A B} (m : result A) (f : A -> result B) (e : exn) :
  (m ≫= f) = Raise e -> m = Raise e \/ exists a, m = Ok a /\ f a = Raise e.
Proof. destruct m as [a|e']; simpl; [eauto|]. intros [= ->]. by left. Qed.

(* ================================================================== *)
(** ** The branch decision *)

Section BranchFacts.

Import PyFloat.
Local Open Scope float_scope.

(** The two thresholds are apart: nothing is below [0.4] and at least
    [0.7]. *)
Lemma lt_04_not_ge_07 s : lt s 0.4 = true -> ge s 0.7 = false.
Proof.
  unfold lt, ge. rewrite ltb_spec, leb_spec.
  replace (Prim2SF 0.4) with (S754_finite false 7205759403792794 (-54)) by reflexivity.
  replace (Prim2SF 0.7) with (S754_finite false 6305039478318694 (-53)) by reflexivity.
  unfold SFltb, SFleb.
  destruct (Prim2SF s) as [sg|sg| |sg m e]; cbn [SFcompare]; try congruence.
  - destruct sg; congruence.
  - destruct sg; [congruence|].
    destruct (Z.compare_spec e (-54)%Z) as [->| |].
    + intros _. reflexivity.
    + intros _. destruct (Z.compare_spec (-53)%Z e); [lia|lia|reflexivity].
    + congruence.
Qed.

Lemma ge_07_not_lt_04 s : ge s 0.7 = true -> lt s 0.4 = false.
Proof.
  intros H. destruct (lt s 0.4) eqn:E; [|reflexivity].
  apply lt_04_not_ge_07 in E. congruence.
Qed.

End BranchFacts.

(** The decision, for a state that carries a score. *)
Lemma branch_decision_scored st s :
  get k_score st = Some s ->
  branch_decision st
  = if PyFloat.ge s 0.7 && owner_set st then (st, node_route)
    else if PyFloat.lt s 0.4
         then (set k_decided_path "nurture"%string st, node_nurture)
         else (set k_decided_path "manual_review"%string st, node_summarize).
Proof. intros Hs. unfold branch_decision. by rewrite Hs. Qed.

Section BranchLaw.

Variable F : text_format.
Variable C : collaborators.


End BranchLaw.


(* ================================================================== *)
(** ** The score stage *)

Section ScoreFacts.

Variable C : collaborators.

(** The rule scorer returns a clamped value. *)
Lemma rule_score_clamped st b :
  rule_score st = Ok b -> exists x, b = PyFloat.clamp01 x.
Proof.
  unfold rule_score. intros H.
  repeat match type of H with
         | (_ ≫= _) = Ok _ =>
             apply bind_ok in H; let a := fresh "a" in
             let Ha := fresh "Ha" in destruct H as (a & Ha & H)
         end.
  injection H as <-. eauto.
Qed.

Lemma rule_score_range st b :
  rule_score st = Ok b -> PyFloat.le 0 b = true /\ PyFloat.le b 1 = true.
Proof. intros (x & ->)%rule_score_clamped. apply clamp01_range. Qed.

(** C2 (clamping law).  Whatever the state holds and whatever the model
    scorer does (any value returned, or an exception), the score that the
    score stage stores lies in [0.0, 1.0]; and the stage raises only when
    the rule scorer does, on contents of the wrong type, before anything
    is stored. *)
Theorem score_clamped (st : LeadState) :
  match score C st with
  | Ok st' =>
      exists v, get k_score st' = Some v
                /\ PyFloat.le 0 v = true /\ PyFloat.le v 1 = true
  | Raise e => rule_score st = Raise e
  end.
Proof.
  unfold score. destruct (rule_score st) as [base|e] eqn:Hbase; [|reflexivity].
  cbn [mbind result_bind].
  destruct (score_lead_with_rubric C st base) as [[llm reasons]|e].
  - eexists. store_simpl. split; [reflexivity|]. apply clamp01_range.
  - eexists. store_simpl. split; [reflexivity|]. by apply rule_score_range in Hbase.
Qed.

End ScoreFacts.

(** The rule scorer is total on contents of the expected types: a
    [company] entry that is a dict, a headcount that is an [int], and an
    industry, a title, a country and an e-mail address that are strings
    (or absent, where the source supplies a default). *)
Lemma rule_score_total st company n industry title country email :
  let e := default [] (get k_enrichment st) in
  let norm := default [] (get k_normalized st) in
  Py.get e "company" (PDict []) = PDict company ->
  Py.get company "employees" (PInt 0) = PInt n ->
  Py.get company "industry" (PStr "") = PStr industry ->
  Py.or_val (Py.get_none norm "title") (PStr "") = PStr title ->
  Py.or_val (Py.get_none norm "country") (PStr "") = PStr country ->
  Py.get norm "email" (PStr "") = PStr email ->
  exists b, rule_score st = Ok b.
Proof.
  intros e norm Hc Hn Hi Ht Hco Hem. unfold rule_score.
  fold e norm. rewrite Hc, Ht, Hco, Hem.
  cbn [Py.attr_get]. rewrite Hn, Hi.
  cbn [mbind result_bind Py.ge_int Py.str_method Py.attr_endswith blocked_free_email].
  destruct (min_headcount <=? n)%Z; cbn [mbind result_bind]; eauto.
Qed.

(* ================================================================== *)
(** ** Scenario A *)

(** C4, as the code has it.  In scenario A the rule score is [0.9]
    (0.3 headcount + 0.1 bonus + 0.2 industry + 0.2 title + 0.1 country,
    which the clamp leaves as it is), and with the model scorer returning
    [0.85] the stored score is [clamp(0.5 * 0.9 + 0.5 * 0.85) = 0.875]. *)
Theorem scenario_A_scores (F : text_format) (C : collaborators) (reasons : list string) :
  scenario_A_rule_score F C reasons = Ok 0.9%float
  /\ scenario_A_final_score F C reasons = Ok (Some 0.875%float).
Proof. split; vm_compute; reflexivity. Qed.

(** Two doubles that compare different are different. *)
Lemma float_neq (x y : float) : (x =? y)%float = false -> (y =? y)%float = true -> x <> y.
Proof. intros Hxy Hyy ->. congruence. Qed.

(** C4 as the specification states it fails: the rule score of scenario A
    is not [1.0] and the final score is not [0.925]. *)
Lemma scenario_A_not_as_specified :
  scenario_A_rule_score plain_format (failing "down") [] <> Ok 1%float
  /\ scenario_A_final_score plain_format (failing "down") [] <> Ok (Some 0.925%float).
Proof.
  split.
  - replace (scenario_A_rule_score plain_format (failing "down") [])
      with (@Ok float 0.9%float) by (vm_compute; reflexivity).
    intros H. assert (E : 0.9%float = 1%float) by congruence.
    revert E. by apply float_neq.
  - replace (scenario_A_final_score plain_format (failing "down") [])
      with (@Ok (option float) (Some 0.875%float)) by (vm_compute; reflexivity).
    intros H. assert (E : 0.875%float = 0.925%float) by congruence.
    revert E. by apply float_neq.
Qed.

(* ================================================================== *)
(** ** The capture stage *)

Section CaptureFacts.

Local Open Scope string_scope.
Variable F : text_format.

(** C5, as the code has it.  When the three normalising expressions
    evaluate, capture returns: it stores [normalized] and [lead_id], and it
    appends to [errors] exactly one entry, naming every required field
    that is missing or empty, when there is such a field, and nothing
    otherwise.  It raises only when one of the three expressions does, on
    a payload value of the wrong type, before anything is stored. *)
Theorem capture_validation (st : LeadState) :
  let raw := default [] (get k_raw st) in
  match capture F st with
  | Ok st' =>
      exists email company domain,
        capture_email raw = Ok email
        /\ capture_company raw = Ok company
        /\ capture_domain raw = Ok domain
        /\ let normalized := normalized_dict F raw email company domain in
           get k_normalized st' = Some normalized
           /\ get k_lead_id st' = Some (Py.or_val (Py.get_none raw "id") (PStr email))
           /\ (missing_fields normalized = [] -> get k_errors st' = get k_errors st)
           /\ (missing_fields normalized <> [] ->
               get k_errors st'
               = Some (default [] (get k_errors st)
                       ++ [missing_fields_error (missing_fields normalized)])%list)
  | Raise e =>
      capture_email raw = Raise e
      \/ capture_company raw = Raise e
      \/ capture_domain raw = Raise e
  end.
Proof.
  intros raw. unfold capture. fold raw.
  destruct (capture_email raw) as [email|e]; [|by left].
  destruct (capture_company raw) as [company|e]; [|by right; left].
  destruct (capture_domain raw) as [domain|e]; [|by right; right].
  cbn [mbind result_bind].
  exists email, company, domain. repeat (split; [reflexivity|]).
  cbn zeta. store_simpl. repeat (split; [reflexivity|]).
  destruct (missing_fields _) as [|f fs] eqn:Hm.
  - store_simpl. split; [reflexivity|congruence].
  - store_simpl. split; [discriminate|reflexivity].
Qed.

(** The error entry lists exactly the required fields whose normalized
    value is absent or empty, in the order of [REQUIRED_FIELDS]. *)
Lemma missing_fields_spec normalized field :
  field ∈ missing_fields normalized
  <-> field ∈ REQUIRED_FIELDS /\ Py.truthy (Py.get_none normalized field) = false.
Proof.
  unfold missing_fields. rewrite !list_elem_of_In, filter_In, negb_true_iff.
  reflexivity.
Qed.

(** Capture returns on a payload whose values are all strings and that
    has no [properties] entry. *)
Lemma capture_total_on_flat_payload st :
  (forall k v, Py.lookup k (default [] (get k_raw st)) = Some v -> exists s, v = PStr s) ->
  Py.lookup "properties" (default [] (get k_raw st)) = None ->
  exists st', capture F st = Ok st'.
Proof.
  intros Hflat Hprop. set (raw := default [] (get k_raw st)) in *.
  assert (Hval : forall k, exists s, Py.or_val (Py.get_none raw k) (PStr "") = PStr s
                           /\ (Py.truthy (Py.get_none raw k) = true -> Py.get_none raw k = PStr s)).
  { intros k. unfold Py.get_none, Py.get, Py.or_val.
    destruct (Py.lookup k raw) as [v|] eqn:Hk; cbn [default from_option id].
    - destruct (Hflat _ _ Hk) as [s ->]. cbn [Py.truthy].
      destruct s; cbn [PyStr.nonempty].
      + exists "". split; [done|discriminate].
      + eauto.
    - exists "". split; [done|discriminate]. }
  unfold capture. fold raw.
  assert (He : exists email, capture_email raw = Ok email).
  { unfold capture_email, Py.or_else.
    destruct (Hval "email") as (s & _ & Hs).
    destruct (Py.truthy (Py.get_none raw "email")).
    - rewrite Hs by done. cbn. eauto.
    - unfold Py.get. rewrite Hprop. cbn. eauto. }
  assert (Hc : exists company, capture_company raw = Ok company).
  { unfold capture_company, Py.or_else.
    destruct (Py.truthy (Py.get_none raw "company")); [eauto|].
    destruct (Py.truthy (Py.get_none raw "company_name")); [eauto|].
    unfold Py.get. rewrite Hprop. cbn. eauto. }
  assert (Hd : exists domain, capture_domain raw = Ok domain).
  { unfold capture_domain.
    destruct (Hval "website") as (w & _ & Hw), (Hval "domain") as (d & Hd & _).
    unfold Py.or_val at 1. destruct (Py.truthy (Py.get_none raw "website")).
    - rewrite Hw by done. cbn. eauto.
    - rewrite Hd. cbn. eauto. }
  destruct He as [email ->], Hc as [company ->], Hd as [domain ->].
  cbn [mbind result_bind]. eauto.
Qed.

End CaptureFacts.

(** C5 as the specification states it fails: a payload in the shape of a
    CRM export, whose [properties.email] is a plain string, lacks the
    required [full_name], and capture raises on it instead of recording
    the error and returning. *)
Lemma capture_raises_on_missing_field :
  let payload := [("company", PStr "Acme");
                  ("properties", PDict [("email", PStr "j@acme.com")])]%string in
  Py.truthy (Py.get_none payload "full_name") = false
  /\ capture plain_format (initial_state payload)
     = Raise (AttributeError "'str' object has no attribute 'get'").
Proof. split; reflexivity. Qed.

(* ================================================================== *)
(** ** The enrich stage *)

Section EnrichFacts.

Local Open Scope string_scope.
Variable C : collaborators.

(** C6 (enrich degradation).  When the normalized domain and e-mail
    address are both absent or empty, the stage sets [enrichment] to the
    empty dict and appends no error; when the enrichment collaborator is
    called and raises, the stage appends one error that carries the text
    of the exception and sets [enrichment] to the empty dict.  In both
    cases it returns: [enrich] is a total function, no exception leaves
    it. *)
Theorem enrich_degrades (st : LeadState) :
  let norm := default [] (get k_normalized st) in
  let domain := Py.get_none norm "domain" in
  let email := Py.get_none norm "email" in
  (Py.truthy domain = false -> Py.truthy email = false ->
     get k_enrichment (enrich C st) = Some []
     /\ get k_errors (enrich C st) = get k_errors st)
  /\ (forall e,
        Py.truthy domain || Py.truthy email = true ->
        enrich_domain_person C domain email = Raise e ->
        get k_enrichment (enrich C st) = Some []
        /\ get k_errors (enrich C st)
           = Some (default [] (get k_errors st)
                   ++ ["Enrichment failed: " +:+ exn_str e])%list).
Proof.
  intros norm domain email. unfold enrich. fold norm domain email. split.
  - intros -> ->. cbn [negb andb]. by store_simpl.
  - intros e Hcall ->.
    destruct (Py.truthy domain), (Py.truthy email); try discriminate Hcall;
      cbn [negb andb]; by store_simpl.
Qed.

(** The collaborator is consulted exactly when a domain or an address is
    there; on its answer the stage stores the answer and records
    nothing. *)
Lemma enrich_success st data :
  let norm := default [] (get k_normalized st) in
  Py.truthy (Py.get_none norm "domain") || Py.truthy (Py.get_none norm "email") = true ->
  enrich_domain_person C (Py.get_none norm "domain") (Py.get_none norm "email") = Ok data ->
  get k_enrichment (enrich C st) = Some data
  /\ get k_errors (enrich C st) = get k_errors st.
Proof.
  intros norm Hcall Hans. unfold enrich. fold norm. rewrite Hans.
  destruct (Py.truthy (Py.get_none norm "domain")),
           (Py.truthy (Py.get_none norm "email")); try discriminate Hcall;
    cbn [negb andb]; by store_simpl.
Qed.

End EnrichFacts.

(** Witness of C6: with the address of scenario A and a provider that
    fails, the stage records the failure and an empty enrichment. *)
Lemma enrich_degrades_witness :
  let st := set k_normalized [("email", PStr "j@acme.com")]%string
              (initial_state scenario_A_payload) in
  get k_enrichment (enrich (failing "API timeout") st) = Some []
  /\ get k_errors (enrich (failing "API timeout") st)
     = Some ["Enrichment failed: API timeout"%string].
Proof.
  exact (proj2 (enrich_degrades (failing "API timeout")
                  (set k_normalized [("email", PStr "j@acme.com")]%string
                     (initial_state scenario_A_payload)))
           (Exception "API timeout") eq_refl eq_refl).
Defined.

(* ================================================================== *)
(** ** The route stage *)

Section RouteFacts.

Local Open Scope string_scope.
Variable F : text_format.
Variable C : collaborators.


(** The stage lets an exception out only when the routing file cannot be
    read for a reason other than its absence or its syntax. *)
Lemma route_raises_only_on_unreadable_config st e :
  route F C st = Raise e -> routing_config C = ReadFails e.
Proof.
  unfold route, route_fallback.
  destruct (routing_config C) as [| |table|e']; cbn [load_routing_rules mbind result_bind].
  - destruct (find_owner_by_rules C _ _ _); discriminate.
  - destruct (find_owner_by_rules C _ _ _); discriminate.
  - destruct (find_owner_by_rules C _ _ _); discriminate.
  - congruence.
Qed.

End RouteFacts.


(* ================================================================== *)
(** ** The payload is never modified *)

Section RawFrame.

Variable F : text_format.
Variable C : collaborators.

Lemma raw_untouched_refl st : raw_untouched st st.
Proof. by split. Qed.

Lemma raw_untouched_set k v st0 st :
  k <> k_raw -> raw_untouched st0 st -> raw_untouched st0 (set k v st).
Proof.
  intros Hk [Hg Hw]. split.
  - by rewrite get_set_ne.
  - by rewrite write_count_set_ne.
Qed.

Lemma raw_untouched_append_error msg st0 st :
  raw_untouched st0 st -> raw_untouched st0 (append_error msg st).
Proof. intros H. unfold append_error. by apply raw_untouched_set. Qed.

Create HintDb raw_frame.
#[local] Hint Resolve raw_untouched_refl raw_untouched_append_error : raw_frame.
#[local] Hint Extern 1 (raw_untouched _ (set _ _ _)) =>
  apply raw_untouched_set; [discriminate|] : raw_frame.

Lemma capture_raw st st' : capture F st = Ok st' -> raw_untouched st st'.
Proof.
  unfold capture.
  destruct (capture_email _); [|discriminate].
  destruct (capture_company _); [|discriminate].
  destruct (capture_domain _); [|discriminate].
  cbn [mbind result_bind]. intros [= <-].
  destruct (missing_fields _); auto with raw_frame.
Qed.

Lemma enrich_raw st : raw_untouched st (enrich C st).
Proof.
  unfold enrich. destruct (_ && _); [auto with raw_frame|].
  destruct (enrich_domain_person C _ _); auto with raw_frame.
Qed.

Lemma score_raw st st' : score C st = Ok st' -> raw_untouched st st'.
Proof.
  unfold score. destruct (rule_score st) as [base|]; [|discriminate].
  cbn [mbind result_bind].
  destruct (score_lead_with_rubric C st base) as [[llm reasons]|e];
    intros [= <-]; auto with raw_frame.
Qed.

Lemma route_raw st st' : route F C st = Ok st' -> raw_untouched st st'.
Proof.
  unfold route, route_fallback.
  destruct (load_routing_rules (routing_config C)) as [routes|e];
    cbn [mbind result_bind]; [|discriminate].
  destruct (find_owner_by_rules C _ _ routes) as [owner|e].
  - destruct (create_or_update_contact C _); intros [= <-]; auto 6 with raw_frame.
  - intros [= <-]. auto with raw_frame.
Qed.

Lemma summarize_raw st : raw_untouched st (summarize F C st).
Proof.
  unfold summarize. destruct (similar_accounts C st) as [l|e]; [|auto with raw_frame].
  destruct (summarize_for_ae C _ l); auto with raw_frame.
Qed.

Lemma nurture_raw st : raw_untouched st (nurture F st).
Proof. unfold nurture. auto 6 with raw_frame. Qed.

(** C9 (the payload is immutable).  Each of the six stages returns a
    state whose [raw] is the [raw] it was given, and writes [raw] not
    once. *)
Theorem raw_is_immutable (st : LeadState) :
  (forall st', capture F st = Ok st' -> raw_untouched st st')
  /\ raw_untouched st (enrich C st)
  /\ (forall st', score C st = Ok st' -> raw_untouched st st')
  /\ (forall st', route F C st = Ok st' -> raw_untouched st st')
  /\ raw_untouched st (summarize F C st)
  /\ raw_untouched st (nurture F st).
Proof.
  split; [apply capture_raw|]. split; [apply enrich_raw|].
  split; [apply score_raw|]. split; [apply route_raw|].
  split; [apply summarize_raw|apply nurture_raw].
Qed.

End RawFrame.

(* ================================================================== *)
(** ** Writes to [decided_path] *)

Section DecidedPath.

Variable F : text_format.
Variable C : collaborators.

Lemma summarize_decided_path st :
  get k_decided_path (summarize F C st) = get k_decided_path st
  /\ write_count k_decided_path (summarize F C st) = write_count k_decided_path st.
Proof.
  unfold summarize. destruct (similar_accounts C st) as [l|e].
  - destruct (summarize_for_ae C _ l); by store_simpl.
  - by store_simpl.
Qed.

Lemma nurture_decided_path st :
  get k_decided_path (nurture F st) = Some "nurture"%string
  /\ write_count k_decided_path (nurture F st) = S (write_count k_decided_path st).
Proof. unfold nurture. by store_simpl. Qed.


End DecidedPath.



(* ================================================================== *)
(** ** The idempotency guard *)

Section IdemFacts.

Import Idem.
Local Open Scope string_scope.
Local Open Scope Z_scope.

Lemma nonempty_true key : key <> "" -> PyStr.nonempty key = true.
Proof. by destruct key. Qed.

Lemma idem_name_inj k1 k2 : idem_name k1 = idem_name k2 -> k1 = k2.
Proof. unfold idem_name. intros H. by simplify_eq/=. Qed.

(** An admitted key is held until its expiry (shared store) or for good
    (local set). *)
Lemma check_and_set_fresh self t key ttl :
  key <> "" -> 0 < ttl -> fresh self t key ->
  exists self',
    check_and_set self (at_time t) key ttl = (true, self')
    /\ (forall t', t <= t' < t + ttl -> ~ fresh self' t' key)
    /\ (forall key' t', key' <> key -> fresh self t' key' -> fresh self' t' key').
Proof.
  intros Hkey Httl Hfresh. unfold check_and_set, fresh in *.
  rewrite (nonempty_true _ Hkey). cbn [negb at_time store_error now].
  destruct (r self) as [db|] eqn:Hr.
  - unfold redis_set_nx. rewrite Hfresh.
    destruct (Z.leb_spec ttl 0) as [|_]; [lia|].
    eexists. split; [reflexivity|]. cbn [r]. split.
    + intros t' Ht'. unfold live. rewrite lookup_insert_eq.
      destruct (Z.ltb_spec t' (t + ttl)); [discriminate|lia].
    + intros key' t' Hne. unfold live. rewrite lookup_insert_ne; [done|].
      intros Heq%idem_name_inj. congruence.
  - destruct (decide (key ∈ _memory_keys self)) as [Hin|_]; [done|].
    eexists. split; [reflexivity|]. cbn [r _memory_keys]. split.
    + intros t' _ H. apply H, elem_of_union. left. by apply elem_of_singleton.
    + intros key' t' Hne Hf. by rewrite not_elem_of_union, not_elem_of_singleton.
Qed.

Lemma check_and_set_held self t key ttl :
  key <> "" -> 0 < ttl -> ~ fresh self t key ->
  check_and_set self (at_time t) key ttl = (false, self).
Proof.
  intros Hkey Httl Hheld. unfold check_and_set, fresh in *.
  rewrite (nonempty_true _ Hkey). cbn [negb at_time store_error now].
  destruct self as [[db|] keys]; cbn [r _memory_keys] in *.
  - unfold redis_set_nx.
    destruct (Z.leb_spec ttl 0) as [|_]; [lia|].
    destruct (live db t (idem_name key)); [reflexivity|done].
  - destruct (decide (key ∈ keys)); done.
Qed.

(** C3 (idempotency guard).  With the store answering and a positive
    [ttl]: for a non-empty key that the guard does not hold, two calls in
    succession, the second before the expiry, answer [true] then [false];
    for two distinct non-empty keys that the guard does not hold, both
    calls answer [true]; and for the empty key the answer is [false],
    whatever the guard and the store do. *)
Theorem idempotency_guard (self : Idem.t) (ttl : Z) :
  0 < ttl ->
  (forall key t1 t2,
     key <> "" -> fresh self t1 key -> t1 <= t2 < t1 + ttl ->
     exists self1,
       check_and_set self (at_time t1) key ttl = (true, self1)
       /\ (check_and_set self1 (at_time t2) key ttl).1 = false)
  /\ (forall key1 key2 t1 t2,
        key1 <> "" -> key2 <> "" -> key1 <> key2 ->
        fresh self t1 key1 -> fresh self t2 key2 ->
        exists self1,
          check_and_set self (at_time t1) key1 ttl = (true, self1)
          /\ (check_and_set self1 (at_time t2) key2 ttl).1 = true)
  /\ (forall c ttl', check_and_set self c "" ttl' = (false, self)).
Proof.
  intros Httl. split; [|split].
  - intros key t1 t2 Hkey Hfresh Ht.
    destruct (check_and_set_fresh self t1 key ttl) as (self1 & -> & Hheld & _); [done..|].
    exists self1. split; [done|].
    by rewrite check_and_set_held by auto.
  - intros key1 key2 t1 t2 Hk1 Hk2 Hne Hf1 Hf2.
    destruct (check_and_set_fresh self t1 key1 ttl) as (self1 & -> & _ & Hother); [done..|].
    exists self1. split; [done|].
    destruct (check_and_set_fresh self1 t2 key2 ttl) as (self2 & -> & _); auto.
  - reflexivity.
Qed.

(** The local tier: once selected it stays, and its set only grows. *)
Lemma local_tier_step self c key ttl :
  r self = None ->
  r (check_and_set self c key ttl).2 = None
  /\ _memory_keys self ⊆ _memory_keys (check_and_set self c key ttl).2.
Proof.
  intros Hr. unfold check_and_set. rewrite Hr.
  destruct (negb (PyStr.nonempty key)); [done|].
  destruct (decide (key ∈ _memory_keys self)); [done|].
  cbn [snd r _memory_keys]. split; [done|]. apply union_subseteq_r.
Qed.

Lemma local_tier_run self calls :
  r self = None ->
  r (run self calls) = None /\ _memory_keys self ⊆ _memory_keys (run self calls).
Proof.
  revert self. induction calls as [|[[c key] ttl] calls IH]; intros self Hr.
  - done.
  - cbn [run]. destruct (local_tier_step self c key ttl Hr) as [Hr' Hsub].
    destruct (IH _ Hr') as [Hr'' Hsub']. split; [done|]. by etrans.
Qed.

Lemma local_tier_admits self c key ttl :
  r self = None -> (check_and_set self c key ttl).1 = true ->
  key ∈ _memory_keys (check_and_set self c key ttl).2.
Proof.
  intros Hr. unfold check_and_set. rewrite Hr.
  destruct (negb (PyStr.nonempty key)); [done|].
  destruct (decide (key ∈ _memory_keys self)); [done|].
  intros _. cbn [snd _memory_keys]. apply elem_of_union. left. by apply elem_of_singleton.
Qed.

Lemma local_tier_rejects self c key ttl :
  r self = None -> key ∈ _memory_keys self ->
  (check_and_set self c key ttl).1 = false.
Proof.
  intros Hr Hin. unfold check_and_set. rewrite Hr.
  destruct (negb (PyStr.nonempty key)); [done|].
  by destruct (decide (key ∈ _memory_keys self)).
Qed.

(** C10 (the local tier ignores [ttl]).  Let the guard be built while the
    store is unreachable, and let it have served any calls.  Once a call
    for [key] has answered [true], every later call for [key] answers
    [false], whatever the [ttl] of either call, whatever the clock, and
    whatever calls come in between. *)
Theorem fallback_guard_ignores_ttl (e : exn) (before between : list (call * string * Z))
    (key : string) (c1 c2 : call) (ttl1 ttl2 : Z) :
  let self := run (init (Raise e)) before in
  (check_and_set self c1 key ttl1).1 = true ->
  (check_and_set (run (check_and_set self c1 key ttl1).2 between) c2 key ttl2).1 = false.
Proof.
  intros self Hadmitted.
  assert (Hr : r self = None) by (apply local_tier_run; reflexivity).
  pose proof (local_tier_admits _ _ _ _ Hr Hadmitted) as Hin.
  destruct (local_tier_step self c1 key ttl1 Hr) as [Hr1 _].
  destruct (local_tier_run _ between Hr1) as [Hr2 Hsub].
  apply local_tier_rejects; [done|]. by apply Hsub.
Qed.

(** A store call that raises admits the key and leaves the guard as it
    was (the guard fails open). *)
Lemma check_and_set_fails_open self db t e key ttl :
  key <> "" -> r self = Some db ->
  check_and_set self {| now := t; store_error := Some e |} key ttl = (true, self).
Proof.
  intros Hkey Hr. unfold check_and_set.
  rewrite (nonempty_true _ Hkey), Hr. reflexivity.
Qed.

End IdemFacts.

(** Witness of C3: a fresh guard on the shared store admits ["evt-1"] at
    time 100 and rejects it at time 200, within the default [ttl]. *)
Lemma idempotency_guard_witness :
  exists self1,
    Idem.check_and_set (Idem.init (Ok ∅)) (Idem.at_time 100) "evt-1" Idem.default_ttl
    = (true, self1)
    /\ (Idem.check_and_set self1 (Idem.at_time 200) "evt-1" Idem.default_ttl).1 = false.
Proof.
  refine (proj1 (idempotency_guard (Idem.init (Ok ∅)) Idem.default_ttl _)
            "evt-1"%string 100 200 _ _ _).
  - reflexivity.
  - discriminate.
  - reflexivity.
  - split; [discriminate|reflexivity].
Defined.

(** Witness of C10: on the local tier, ["evt-1"] admitted with a [ttl] of
    one second at time 0 is still rejected at time 7200. *)
Lemma fallback_guard_ignores_ttl_witness :
  (Idem.check_and_set
     (Idem.check_and_set (Idem.init (Raise (Exception "connection refused")))
        (Idem.at_time 0) "evt-1" 1).2
     (Idem.at_time 7200) "evt-1" Idem.default_ttl).1 = false.
Proof.
  exact (fallback_guard_ignores_ttl (Exception "connection refused") [] [] "evt-1"
           (Idem.at_time 0) (Idem.at_time 7200) 1 Idem.default_ttl eq_refl).
Defined.

(* ================================================================== *)
(** * Further properties of the stages *)

(** ** What each stage writes *)

Section Footprints.

Variable F : text_format.
Variable C : collaborators.

Lemma untouched_refl k st : untouched k st st.
Proof. by split. Qed.

Lemma untouched_set k k' v st0 st :
  k' <> k -> untouched k st0 st -> untouched k st0 (set k' v st).
Proof.
  intros Hk [Hg Hw]. split.
  - by rewrite get_set_ne.
  - by rewrite write_count_set_ne.
Qed.

Lemma untouched_append_error k msg st0 st :
  k_errors <> k -> untouched k st0 st -> untouched k st0 (append_error msg st).
Proof. intros Hk H. unfold append_error. by apply untouched_set. Qed.

(** Turns [k ∉ [k1; ...; kn]] into the inequalities, and closes a frame
    goal through the writes of a stage. *)
Ltac frame_keys H :=
  repeat (apply not_elem_of_cons in H; let Hne := fresh "Hne" in destruct H as [Hne H]).
Ltac frame :=
  repeat first
    [ apply untouched_refl
    | apply untouched_set; [congruence|]
    | apply untouched_append_error; [congruence|] ].

Lemma capture_footprint k st st' :
  k ∉ capture_keys -> capture F st = Ok st' -> untouched k st st'.
Proof.
  intros Hk. frame_keys Hk. unfold capture.
  destruct (capture_email _); [|discriminate].
  destruct (capture_company _); [|discriminate].
  destruct (capture_domain _); [|discriminate].
  cbn [mbind result_bind]. intros [= <-].
  destruct (missing_fields _); frame.
Qed.

Lemma enrich_footprint k st : k ∉ enrich_keys -> untouched k st (enrich C st).
Proof.
  intros Hk. frame_keys Hk. unfold enrich. destruct (_ && _); [frame|].
  destruct (enrich_domain_person C _ _); frame.
Qed.

Lemma score_footprint k st st' :
  k ∉ score_keys -> score C st = Ok st' -> untouched k st st'.
Proof.
  intros Hk. frame_keys Hk. unfold score.
  destruct (rule_score st) as [base|]; [|discriminate].
  cbn [mbind result_bind].
  destruct (score_lead_with_rubric C st base) as [[llm reasons]|e];
    intros [= <-]; frame.
Qed.

Lemma route_footprint k st st' :
  k ∉ route_keys -> route F C st = Ok st' -> untouched k st st'.
Proof.
  intros Hk. frame_keys Hk. unfold route, route_fallback.
  destruct (load_routing_rules (routing_config C)) as [routes|e];
    cbn [mbind result_bind]; [|discriminate].
  destruct (find_owner_by_rules C _ _ routes) as [owner|e].
  - destruct (create_or_update_contact C _); intros [= <-]; frame.
  - intros [= <-]. frame.
Qed.

Lemma summarize_footprint k st :
  k ∉ summarize_keys -> untouched k st (summarize F C st).
Proof.
  intros Hk. frame_keys Hk. unfold summarize.
  destruct (similar_accounts C st) as [l|e]; [|frame].
  destruct (summarize_for_ae C _ l); frame.
Qed.

Lemma nurture_footprint k st : k ∉ nurture_keys -> untouched k st (nurture F st).
Proof. intros Hk. frame_keys Hk. unfold nurture. frame. Qed.

(** X1 (footprints).  A stage leaves every key outside its own list as
    it found it, value and write count: capture touches only [errors],
    [normalized] and [lead_id]; enrich only [errors] and [enrichment];
    score only [errors], [score] and [score_reasons]; route only [errors],
    [owner], [crm_record_id] and [route_reason]; summarize only [errors],
    [similar_accounts] and [summary]; nurture only [decided_path] and its
    three records. *)
Theorem stage_footprints (k : key) (st : LeadState) :
  (k ∉ capture_keys -> forall st', capture F st = Ok st' -> untouched k st st')
  /\ (k ∉ enrich_keys -> untouched k st (enrich C st))
  /\ (k ∉ score_keys -> forall st', score C st = Ok st' -> untouched k st st')
  /\ (k ∉ route_keys -> forall st', route F C st = Ok st' -> untouched k st st')
  /\ (k ∉ summarize_keys -> untouched k st (summarize F C st))
  /\ (k ∉ nurture_keys -> untouched k st (nurture F st)).
Proof.
  split; [intros Hk st'; by apply capture_footprint|].
  split; [apply enrich_footprint|].
  split; [intros Hk st'; by apply score_footprint|].
  split; [intros Hk st'; by apply route_footprint|].
  split; [apply summarize_footprint|apply nurture_footprint].
Qed.

End Footprints.

(** ** The error log only grows *)

Section ErrorLog.

Variable F : text_format.
Variable C : collaborators.

Lemma errors_of_set k v st : k <> k_errors -> errors_of (set k v st) = errors_of st.
Proof. intros Hk. unfold errors_of. by rewrite get_set_ne. Qed.

Lemma errors_of_append_error msg st :
  errors_of (append_error msg st) = errors_of st ++ [msg].
Proof. unfold errors_of at 1. by rewrite get_append_error. Qed.

Lemma errors_extended_same n st st' :
  errors_of st' = errors_of st -> errors_extended n st st'.
Proof. intros H. exists []. rewrite H, app_nil_r. split; [done|simpl; lia]. Qed.

Lemma errors_extended_one n msg st st' :
  errors_of st' = errors_of st ++ [msg] -> errors_extended (S n) st st'.
Proof. intros H. exists [msg]. split; [done|simpl; lia]. Qed.

Lemma errors_extended_trans n m st1 st2 st3 :
  errors_extended n st1 st2 -> errors_extended m st2 st3 ->
  errors_extended (n + m) st1 st3.
Proof.
  intros (l1 & H1 & Hn) (l2 & H2 & Hm). exists (l1 ++ l2).
  rewrite H2, H1, app_assoc, length_app. split; [done|lia].
Qed.

(** Rewrites the errors of a state built by the writes of a stage. *)
Ltac errors_simpl :=
  repeat first
    [ rewrite errors_of_append_error
    | rewrite errors_of_set by discriminate ].

Lemma capture_errors st st' : capture F st = Ok st' -> errors_extended 1 st st'.
Proof.
  unfold capture.
  destruct (capture_email _); [|discriminate].
  destruct (capture_company _); [|discriminate].
  destruct (capture_domain _); [|discriminate].
  cbn [mbind result_bind]. intros [= <-].
  destruct (missing_fields _).
  - apply errors_extended_same. by errors_simpl.
  - eapply errors_extended_one. by errors_simpl.
Qed.

Lemma enrich_errors st : errors_extended 1 st (enrich C st).
Proof.
  unfold enrich. destruct (_ && _).
  - apply errors_extended_same. by errors_simpl.
  - destruct (enrich_domain_person C _ _).
    + apply errors_extended_same. by errors_simpl.
    + eapply errors_extended_one. by errors_simpl.
Qed.

Lemma score_errors st st' : score C st = Ok st' -> errors_extended 1 st st'.
Proof.
  unfold score. destruct (rule_score st) as [base|]; [|discriminate].
  cbn [mbind result_bind].
  destruct (score_lead_with_rubric C st base) as [[llm reasons]|e]; intros [= <-].
  - apply errors_extended_same. by errors_simpl.
  - eapply errors_extended_one. by errors_simpl.
Qed.

Lemma route_errors st st' : route F C st = Ok st' -> errors_extended 1 st st'.
Proof.
  unfold route, route_fallback.
  destruct (load_routing_rules (routing_config C)) as [routes|e];
    cbn [mbind result_bind]; [|discriminate].
  destruct (find_owner_by_rules C _ _ routes) as [owner|e].
  - destruct (create_or_update_contact C _); intros [= <-].
    + apply errors_extended_same. by errors_simpl.
    + eapply errors_extended_one. by errors_simpl.
  - intros [= <-]. eapply errors_extended_one. by errors_simpl.
Qed.

Lemma summarize_errors st : errors_extended 1 st (summarize F C st).
Proof.
  unfold summarize. destruct (similar_accounts C st) as [l|e].
  - destruct (summarize_for_ae C _ l).
    + apply errors_extended_same. by errors_simpl.
    + eapply errors_extended_one. by errors_simpl.
  - eapply errors_extended_one. by errors_simpl.
Qed.

Lemma nurture_errors st : errors_extended 0 st (nurture F st).
Proof. apply errors_extended_same. unfold nurture. by errors_simpl. Qed.

Lemma branch_decision_errors st : errors_of (branch_decision st).1 = errors_of st.
Proof.
  unfold branch_decision. destruct (_ && _); [done|].
  destruct (PyFloat.lt _ _); cbn [fst]; by errors_simpl.
Qed.

Lemma after_score_errors st st' :
  after_score F C st = Ok st' -> errors_extended 2 st st'.
Proof.
  unfold after_score. pose proof (branch_decision_errors st) as Hb.
  destruct (branch_decision st) as [st1 []]; cbn [fst] in Hb.
  - destruct (route F C st1) as [st2|] eqn:Hr; cbn [mbind result_bind]; [|discriminate].
    intros [= <-]. apply route_errors in Hr.
    pose proof (errors_extended_trans _ _ _ _ _ Hr (summarize_errors st2)) as (l & Hl & Hn).
    exists l. by rewrite Hl, Hb.
  - intros [= <-]. destruct (nurture_errors st1) as (l & Hl & Hn).
    exists l. rewrite Hl, Hb. split; [done|lia].
  - intros [= <-]. destruct (summarize_errors st1) as (l & Hl & Hn).
    exists l. rewrite Hl, Hb. split; [done|lia].
Qed.

(** X2 (the error log only grows).  Every stage returns the errors it
    was given, in order, followed by at most one new entry (none for
    nurture); a whole run appends at most five and removes none. *)
Theorem errors_only_grow (st : LeadState) :
  (forall st', capture F st = Ok st' -> errors_extended 1 st st')
  /\ errors_extended 1 st (enrich C st)
  /\ (forall st', score C st = Ok st' -> errors_extended 1 st st')
  /\ (forall st', route F C st = Ok st' -> errors_extended 1 st st')
  /\ errors_extended 1 st (summarize F C st)
  /\ errors_extended 0 st (nurture F st)
  /\ (forall st', run_workflow F C st = Ok st' -> errors_extended 5 st st').
Proof.
  split; [apply capture_errors|]. split; [apply enrich_errors|].
  split; [apply score_errors|]. split; [apply route_errors|].
  split; [apply summarize_errors|]. split; [apply nurture_errors|].
  intros st'. unfold run_workflow.
  destruct (capture F st) as [st1|] eqn:H1; cbn [mbind result_bind]; [|discriminate].
  destruct (score C (enrich C st1)) as [st2|] eqn:H2; cbn [mbind result_bind]; [|discriminate].
  intros H3. apply capture_errors in H1. apply score_errors in H2. apply after_score_errors in H3.
  pose proof (errors_extended_trans _ _ _ _ _ H1 (enrich_errors st1)) as H12.
  pose proof (errors_extended_trans _ _ _ _ _ H12 H2) as H123.
  exact (errors_extended_trans _ _ _ _ _ H123 H3).
Qed.

End ErrorLog.

(** ** The score stage: what the model scorer's outcome decides *)

Section ScoreOutcome.

Local Open Scope string_scope.
Variable C : collaborators.

(** X3 (score fallback).  Let the rule scorer return [base].  When the
    model scorer raises, the stage stores [base] itself as the score and
    the single reason "Rule-based scoring only (LLM failed)", and appends
    one error with the text of the exception.  When the model scorer
    returns [(llm, reasons)], the stage stores [clamp(0.5*base + 0.5*llm)]
    and the model's reasons, and appends nothing. *)
Theorem score_outcomes (st : LeadState) (base : float) :
  rule_score st = Ok base ->
  (forall e,
     score_lead_with_rubric C st base = Raise e ->
     exists st',
       score C st = Ok st'
       /\ get k_score st' = Some base
       /\ get k_score_reasons st' = Some ["Rule-based scoring only (LLM failed)"]
       /\ errors_of st' = (errors_of st ++ ["LLM scoring failed: " +:+ exn_str e])%list)
  /\ (forall llm reasons,
        score_lead_with_rubric C st base = Ok (llm, reasons) ->
        exists st',
          score C st = Ok st'
          /\ get k_score st' = Some (PyFloat.clamp01 (0.5 * base + 0.5 * llm)%float)
          /\ get k_score_reasons st' = Some reasons
          /\ get k_errors st' = get k_errors st).
Proof.
  intros Hbase. unfold score. rewrite Hbase. cbn [mbind result_bind]. split.
  - intros e ->. eexists. split; [reflexivity|]. unfold errors_of. by store_simpl.
  - intros llm reasons ->. eexists. split; [reflexivity|]. by store_simpl.
Qed.

End ScoreOutcome.

(** Witness of X3: in scenario B the model scorer fails and the stored
    score is the rule score, [0.0]. *)
Lemma score_outcomes_witness :
  let st := enrich (failing "down")
              (set k_normalized
                 [("email", PStr "j@gmail.com"); ("title", PStr "Director");
                  ("country", PStr "US")]%string
                 (initial_state scenario_B_payload)) in
  exists st',
    score (failing "down") st = Ok st'
    /\ get k_score st' = Some 0%float
    /\ get k_score_reasons st' = Some ["Rule-based scoring only (LLM failed)"%string]
    /\ errors_of st'
       = (errors_of st ++ ["LLM scoring failed: down"%string])%list.
Proof.
  exact (proj1 (score_outcomes (failing "down")
                  (enrich (failing "down")
                     (set k_normalized
                        [("email", PStr "j@gmail.com"); ("title", PStr "Director");
                         ("country", PStr "US")]%string
                        (initial_state scenario_B_payload)))
                  0%float eq_refl)
           (Exception "down") eq_refl).
Defined.

(** ** The summarize stage *)

Section SummarizeOutcome.

Local Open Scope string_scope.
Variable F : text_format.
Variable C : collaborators.

(** X4 (summarize degradation).  When the similarity lookup raises, the
    stage stores an empty list of similar accounts and the fixed text
    "Summary generation failed", appends one error, and does not call the
    summariser.  When the lookup answers and the summariser raises, the
    stage keeps the accounts found, stores the templated summary built
    from the normalized name and company and the score, and appends one
    error.  When both answer it stores both answers and appends
    nothing. *)
Theorem summarize_outcomes (st : LeadState) :
  (forall e,
     similar_accounts C st = Raise e ->
     get k_similar_accounts (summarize F C st) = Some []
     /\ get k_summary (summarize F C st) = Some "Summary generation failed"
     /\ errors_of (summarize F C st)
        = (errors_of st ++ ["Summarization failed: " +:+ exn_str e])%list)
  /\ (forall l e,
        similar_accounts C st = Ok l ->
        summarize_for_ae C (set k_similar_accounts l st) l = Raise e ->
        get k_similar_accounts (summarize F C st) = Some l
        /\ get k_summary (summarize F C st)
           = Some ("Lead: "
                   +:+ Py.str F (Py.get_none (default [] (get k_normalized st)) "full_name")
                   +:+ " from "
                   +:+ Py.str F (Py.get_none (default [] (get k_normalized st)) "company")
                   +:+ " (Score: " +:+ format_2f F (default 0%float (get k_score st))
                   +:+ ")")
        /\ errors_of (summarize F C st)
           = (errors_of st ++ ["LLM summarization failed: " +:+ exn_str e])%list)
  /\ (forall l summary,
        similar_accounts C st = Ok l ->
        summarize_for_ae C (set k_similar_accounts l st) l = Ok summary ->
        get k_similar_accounts (summarize F C st) = Some l
        /\ get k_summary (summarize F C st) = Some summary
        /\ get k_errors (summarize F C st) = get k_errors st).
Proof.
  unfold summarize, errors_of. split; [|split].
  - intros e ->. by store_simpl.
  - intros l e -> ->. unfold fallback_summary. by store_simpl.
  - intros l summary -> ->. by store_simpl.
Qed.

End SummarizeOutcome.

(** Witness of X4: with a similarity index that fails, summarize leaves
    the fixed text and one error. *)
Lemma summarize_outcomes_witness :
  let st := initial_state scenario_A_payload in
  get k_similar_accounts (summarize plain_format (failing "index down") st) = Some []
  /\ get k_summary (summarize plain_format (failing "index down") st)
     = Some "Summary generation failed"%string
  /\ errors_of (summarize plain_format (failing "index down") st)
     = (errors_of st ++ ["Summarization failed: index down"%string])%list.
Proof.
  exact (proj1 (summarize_outcomes plain_format (failing "index down")
                  (initial_state scenario_A_payload))
           (Exception "index down") eq_refl).
Defined.

(** ** The route stage: when it raises, and what it stores on success *)

Section RouteOutcome.

Local Open Scope string_scope.
Variable F : text_format.
Variable C : collaborators.


(** X6 (route success).  When the rules load, owner resolution answers
    [owner] and the CRM upsert answers [record], the stage stores the
    owner, the reason "Matched territory <country> -> <owner>" with the
    normalized country (or "unknown"), and as [crm_record_id] the [id] of
    the record, [None] when the record is [None], empty or has no [id];
    it appends no error, also in that last case. *)
Theorem route_success (st : LeadState) (routes : gmap string string)
    (owner : string) (record : option pydict) :
  load_routing_rules (routing_config C) = Ok routes ->
  find_owner_by_rules C (default [] (get k_normalized st))
    (default [] (get k_enrichment st)) routes = Ok owner ->
  create_or_update_contact C (set k_owner owner st) = Ok record ->
  exists st',
    route F C st = Ok st'
    /\ get k_owner st' = Some owner
    /\ get k_crm_record_id st'
       = Some (match record with
               | Some d => default PNone (Py.lookup "id" d)
               | None => PNone
               end)
    /\ get k_route_reason st'
       = Some ("Matched territory "
               +:+ Py.str F (Py.get (default [] (get k_normalized st)) "country"
                               (PStr "unknown"))
               +:+ " " +:+ arrow +:+ " " +:+ owner)
    /\ get k_errors st' = get k_errors st.
Proof.
  intros Hload Hfind Hcrm. unfold route. rewrite Hload, Hfind, Hcrm.
  eexists. split; [reflexivity|]. store_simpl.
  split; [reflexivity|]. split; [|split; reflexivity].
  f_equal. unfold crm_id. destruct record as [[|kv d]|]; reflexivity.
Qed.

End RouteOutcome.

(** Witness of X6: a CRM that answers with an empty record leaves
    [crm_record_id] at [None] and records no error. *)
Lemma route_success_witness :
  let C := {| enrich_domain_person := fun _ _ => Ok [];
              score_lead_with_rubric := fun _ _ => Ok (0.5%float, []);
              find_owner_by_rules := fun _ _ _ => Ok "us-team@company.com"%string;
              create_or_update_contact := fun _ => Ok (Some []);
              similar_accounts := fun _ => Ok [];
              summarize_for_ae := fun _ _ => Ok ""%string;
              routing_config := InvalidJson |} in
  exists st',
    route plain_format C (initial_state scenario_A_payload) = Ok st'
    /\ get k_owner st' = Some "us-team@company.com"%string
    /\ get k_crm_record_id st' = Some PNone
    /\ get k_errors st' = Some [].
Proof.
  intros C.
  destruct (route_success plain_format C (initial_state scenario_A_payload)
              _ "us-team@company.com"%string (Some []) eq_refl eq_refl eq_refl)
    as (st' & Hr & Ho & Hid & _ & He).
  exists st'. split; [exact Hr|]. split; [exact Ho|]. split; [exact Hid|exact He].
Defined.

(* ================================================================== *)
(** * The workflow as the ingress runs it *)

(** Proves that a given key is not in a given list of keys. *)
Ltac not_in_keys :=
  lazymatch goal with
  | |- _ ∉ _ =>
      unfold capture_keys, enrich_keys, score_keys, route_keys, summarize_keys,
        nurture_keys;
      rewrite ?not_elem_of_cons; repeat split;
      first [discriminate | apply not_elem_of_nil]
  end.

Section WorkflowFacts.

Local Open Scope string_scope.
Variable F : text_format.
Variable C : collaborators.

Lemma run_workflow_scored payload :
  run_workflow F C (initial_state payload)
  = (st ← scored F C payload; after_score F C st).
Proof.
  unfold run_workflow, scored. by destruct (capture F (initial_state payload)).
Qed.

Lemma untouched_trans k st1 st2 st3 :
  untouched k st1 st2 -> untouched k st2 st3 -> untouched k st1 st3.
Proof. intros [Hg Hw] [Hg' Hw']. split; congruence. Qed.

Lemma scored_untouched k payload st :
  k ∉ capture_keys -> k ∉ enrich_keys -> k ∉ score_keys ->
  scored F C payload = Ok st -> untouched k (initial_state payload) st.
Proof.
  intros Hc He Hs. unfold scored.
  destruct (capture F (initial_state payload)) as [st1|] eqn:H1;
    cbn [mbind result_bind]; [|discriminate].
  intros H2.
  eapply untouched_trans; [by eapply capture_footprint|].
  eapply untouched_trans; [by apply (enrich_footprint C)|].
  by eapply score_footprint.
Qed.

Lemma scored_no_owner payload st : scored F C payload = Ok st -> owner_set st = false.
Proof.
  intros H. apply (scored_untouched k_owner) in H as [Hg _]; [|not_in_keys..].
  unfold owner_set. by rewrite Hg.
Qed.

Lemma scored_has_score payload st :
  scored F C payload = Ok st -> exists s : float, get k_score st = Some s.
Proof.
  unfold scored.
  destruct (capture F (initial_state payload)) as [st1|]; cbn [mbind result_bind];
    [|discriminate].
  unfold score. destruct (rule_score _) as [base|]; cbn [mbind result_bind]; [|discriminate].
  destruct (score_lead_with_rubric C _ base) as [[llm reasons]|e]; intros [= <-];
    eexists; by store_simpl.
Qed.

(** The conditional edge, for a state without owner. *)
Lemma branch_decision_no_owner st s :
  get k_score st = Some s -> owner_set st = false ->
  branch_decision st
  = if PyFloat.lt s 0.4
    then (set k_decided_path "nurture" st, node_nurture)
    else (set k_decided_path "manual_review" st, node_summarize).
Proof.
  intros Hs Ho. rewrite (branch_decision_scored _ _ Hs), Ho.
  by rewrite andb_false_r.
Qed.

(** What a run of the ingress does after scoring: nurture below [0.4],
    summarize otherwise. *)
Lemma run_workflow_cases payload st' :
  run_workflow F C (initial_state payload) = Ok st' ->
  exists (st : LeadState) (s : float),
    scored F C payload = Ok st /\ get k_score st = Some s
    /\ st' = if PyFloat.lt s 0.4
             then nurture F (set k_decided_path "nurture" st)
             else summarize F C (set k_decided_path "manual_review" st).
Proof.
  rewrite run_workflow_scored.
  destruct (scored F C payload) as [st|] eqn:Hst; cbn [mbind result_bind]; [|discriminate].
  destruct (scored_has_score _ _ Hst) as [s Hs].
  unfold after_score.
  rewrite (branch_decision_no_owner _ _ Hs (scored_no_owner _ _ Hst)).
  change (value_of k_score) with float in s.
  destruct (PyFloat.lt s 0.4) eqn:E; intros [= <-]; exists st, s; by rewrite E.
Qed.

(** A key that no stage of such a run writes is at the end what the
    ingress made it. *)
Lemma run_workflow_untouched k payload st' :
  k ∉ capture_keys -> k ∉ enrich_keys -> k ∉ score_keys ->
  k ∉ summarize_keys -> k ∉ nurture_keys ->
  run_workflow F C (initial_state payload) = Ok st' ->
  untouched k (initial_state payload) st'.
Proof.
  intros Hc He Hs Hsum Hn (st & s & Hst & _ & ->)%run_workflow_cases.
  assert (Hd : k_decided_path <> k).
  { intros <-. apply Hn. unfold nurture_keys. apply list_elem_of_here. }
  eapply untouched_trans; [by eapply scored_untouched|].
  destruct (PyFloat.lt s 0.4).
  - eapply untouched_trans; [|by apply nurture_footprint].
    apply untouched_set; [done|apply untouched_refl].
  - eapply untouched_trans; [|by apply summarize_footprint].
    apply untouched_set; [done|apply untouched_refl].
Qed.

(** X7 (route is never reached).  In a run that the ingress starts, no
    stage before the branch decision sets [owner], so the decision never
    selects route, whatever the score: the run ends with [owner],
    [crm_record_id] and [route_reason] absent and never written. *)
Theorem route_is_never_reached (payload : pydict) :
  (forall st, scored F C payload = Ok st -> (branch_decision st).2 <> node_route)
  /\ (forall st',
        run_workflow F C (initial_state payload) = Ok st' ->
        get k_owner st' = None /\ write_count k_owner st' = 0%nat
        /\ get k_crm_record_id st' = None /\ write_count k_crm_record_id st' = 0%nat
        /\ get k_route_reason st' = None /\ write_count k_route_reason st' = 0%nat).
Proof.
  split.
  - intros st Hst. destruct (scored_has_score _ _ Hst) as [s Hs].
    rewrite (branch_decision_no_owner _ _ Hs (scored_no_owner _ _ Hst)).
    by destruct (PyFloat.lt s 0.4).
  - intros st' Hrun.
    destruct (run_workflow_untouched k_owner _ _ ltac:(not_in_keys) ltac:(not_in_keys)
                ltac:(not_in_keys) ltac:(not_in_keys) ltac:(not_in_keys) Hrun) as [-> ->].
    destruct (run_workflow_untouched k_crm_record_id _ _ ltac:(not_in_keys)
                ltac:(not_in_keys) ltac:(not_in_keys) ltac:(not_in_keys)
                ltac:(not_in_keys) Hrun) as [-> ->].
    destruct (run_workflow_untouched k_route_reason _ _ ltac:(not_in_keys)
                ltac:(not_in_keys) ltac:(not_in_keys) ltac:(not_in_keys)
                ltac:(not_in_keys) Hrun) as [-> ->].
    done.
Qed.

End WorkflowFacts.

Section WorkflowOutcome.

Local Open Scope string_scope.
Variable F : text_format.
Variable C : collaborators.


(** X9 (collaborator failures never end a run).  A run that the ingress
    starts raises only when capture raises, on a payload value of the
    wrong type, or when the rule scorer raises, on normalized or
    enrichment contents of the wrong type; no exception of a collaborator
    ends the run. *)
Theorem run_raises_only_on_ill_typed_contents (payload : pydict) (e : exn) :
  run_workflow F C (initial_state payload) = Raise e ->
  capture F (initial_state payload) = Raise e
  \/ exists st1, capture F (initial_state payload) = Ok st1
                 /\ rule_score (enrich C st1) = Raise e.
Proof.
  rewrite run_workflow_scored.
  destruct (scored F C payload) as [st|e'] eqn:Hst; cbn [mbind result_bind].
  - intros Hrun. exfalso.
    destruct (scored_has_score _ _ _ _ Hst) as [s Hs]. unfold after_score in Hrun.
    rewrite (branch_decision_no_owner _ _ Hs (scored_no_owner _ _ _ _ Hst)) in Hrun.
    by destruct (PyFloat.lt s 0.4).
  - intros [= ->]. unfold scored in Hst.
    destruct (capture F (initial_state payload)) as [st1|e1]; cbn [mbind result_bind] in Hst.
    + right. exists st1. split; [done|]. unfold score in Hst.
      destruct (rule_score (enrich C st1)) as [base|e1]; cbn [mbind result_bind] in Hst;
        [|by injection Hst as ->].
      by destruct (score_lead_with_rubric C _ base) as [[llm reasons]|e2].
    + left. congruence.
Qed.

End WorkflowOutcome.


(** Witness of X9: the payload whose [properties.email] is a string makes
    the run raise, in capture. *)
Lemma run_raises_only_on_ill_typed_contents_witness :
  let payload := [("company", PStr "Acme");
                  ("properties", PDict [("email", PStr "j@acme.com")])]%string in
  let e := AttributeError "'str' object has no attribute 'get'" in
  capture plain_format (initial_state payload) = Raise e
  \/ exists st1, capture plain_format (initial_state payload) = Ok st1
                 /\ rule_score (enrich (failing "down") st1) = Raise e.
Proof.
  exact (run_raises_only_on_ill_typed_contents plain_format (failing "down")
           [("company", PStr "Acme");
            ("properties", PDict [("email", PStr "j@acme.com")])]%string
           (AttributeError "'str' object has no attribute 'get'") eq_refl).
Defined.

(* ================================================================== *)
(** * Further properties of the idempotency guard *)

Section IdemMore.

Import Idem IdemDebug.
Local Open Scope string_scope.
Local Open Scope Z_scope.


(** X11 (clearing a key).  After [clear_key(key)], with the store
    answering, the next [check_and_set(key)] admits the key, on both
    tiers and whether or not the key was held; on the local tier
    [clear_key] always answers [True], on the shared store it answers
    whether a live entry was removed. *)
Theorem clear_key_readmits (self : Idem.t) (key : string) (t t' ttl : Z) :
  key <> "" -> 0 < ttl ->
  (check_and_set (clear_key self (at_time t) key).2 (at_time t') key ttl).1 = true
  /\ (clear_key self (at_time t) key).1
     = match r self with
       | Some db => live db t (idem_name key)
       | None => true
       end.
Proof.
  intros Hkey Httl. unfold clear_key, check_and_set.
  rewrite (nonempty_true _ Hkey). cbn [negb at_time store_error now].
  destruct (r self) as [db|]; cbn [fst snd r _memory_keys redis_delete].
  - unfold redis_set_nx, live. rewrite lookup_delete_eq.
    destruct (Z.leb_spec ttl 0) as [|_]; [lia|]. split; [done|].
    destruct (db !! idem_name key) as [[v ex]|]; [|done].
    by destruct (t <? ex).
  - split; [|done].
    destruct (decide (key ∈ _memory_keys self ∖ {[key]})) as [Hin|]; [|done].
    apply elem_of_difference in Hin as [_ Hin]. by destruct Hin; apply elem_of_singleton.
Qed.


(** X13 (the guard fails open).  On the shared store, a call whose store
    command raises, or whose [ttl] is not positive (the store refuses the
    expiry), admits any non-empty key, also one that is held, and leaves
    the store as it was: a duplicate gets through. *)
Theorem guard_fails_open (self : Idem.t) (db : redis_db) (c : call) (key : string)
    (ttl : Z) :
  r self = Some db -> key <> "" ->
  is_Some (store_error c) \/ ttl <= 0 ->
  check_and_set self c key ttl = (true, self).
Proof.
  intros Hr Hkey Hfail. unfold check_and_set. rewrite (nonempty_true _ Hkey), Hr.
  cbn [negb]. destruct (store_error c) as [e|]; [done|].
  destruct Hfail as [[e He]|Httl]; [discriminate|].
  unfold redis_set_nx. by destruct (Z.leb_spec ttl 0) as [_|]; [|lia].
Qed.

(** X14 (keys are independent).  No call of [check_and_set] for a key,
    whatever it meets and answers, changes whether another key is
    held. *)
Theorem check_and_set_other_keys (self : Idem.t) (c : call) (key key' : string)
    (ttl t : Z) :
  key' <> key ->
  fresh (check_and_set self c key ttl).2 t key' <-> fresh self t key'.
Proof.
  intros Hne. unfold check_and_set, fresh.
  destruct (negb (PyStr.nonempty key)); [done|].
  destruct (r self) as [db|] eqn:Hr.
  - destruct (store_error c); [cbn [snd]; by rewrite Hr|].
    unfold redis_set_nx. destruct (ttl <=? 0); [cbn [snd]; by rewrite Hr|].
    destruct (live db (now c) (idem_name key)); cbn [snd r]; [done|].
    unfold live. rewrite lookup_insert_ne; [done|].
    intros Heq%idem_name_inj. congruence.
  - destruct (decide (key ∈ _memory_keys self)); cbn [snd r _memory_keys];
      rewrite ?Hr; [done|].
    rewrite not_elem_of_union, not_elem_of_singleton.
    split; [by intros [_ ?]|by intros ?; split].
Qed.

End IdemMore.


(** Witness of X11: on the local tier, a held key is admitted again once
    cleared. *)
Lemma clear_key_readmits_witness :
  let held := (Idem.check_and_set (Idem.init (Raise (Exception "connection refused")))
                 (Idem.at_time 0) "evt-1" 3600).2 in
  (Idem.check_and_set held (Idem.at_time 1) "evt-1" 3600).1 = false
  /\ (Idem.check_and_set (Idem.clear_key held (Idem.at_time 2) "evt-1").2
        (Idem.at_time 3) "evt-1" 3600).1 = true.
Proof.
  split; [reflexivity|].
  refine (proj1 (clear_key_readmits
                   (Idem.check_and_set (Idem.init (Raise (Exception "connection refused")))
                      (Idem.at_time 0) "evt-1" 3600).2 "evt-1" 2 3 3600 _ _)).
  - discriminate.
  - reflexivity.
Defined.


(** Witness of X13: a held key is admitted when the store command
    raises. *)
Lemma guard_fails_open_witness :
  let held := (Idem.check_and_set (Idem.init (Ok ∅)) (Idem.at_time 0) "evt-1" 3600).2 in
  Idem.check_and_set held (Idem.at_time 1) "evt-1" 3600 = (false, held)
  /\ Idem.check_and_set held
       {| Idem.now := 1; Idem.store_error := Some (Exception "connection lost") |}
       "evt-1" 3600 = (true, held).
Proof.
  split; [reflexivity|].
  refine (guard_fails_open
            (Idem.check_and_set (Idem.init (Ok ∅)) (Idem.at_time 0) "evt-1" 3600).2
            (<[Idem.idem_name "evt-1" := (0, 3600)]> ∅)
            {| Idem.now := 1; Idem.store_error := Some (Exception "connection lost") |}
            "evt-1" 3600 _ _ _).
  - reflexivity.
  - discriminate.
  - left. eexists. reflexivity.
Defined.

(** Witness of X14: admitting ["evt-1"] leaves ["evt-2"] not held. *)
Lemma check_and_set_other_keys_witness :
  Idem.fresh (Idem.check_and_set (Idem.init (Ok ∅)) (Idem.at_time 0) "evt-1" 3600).2
    10 "evt-2".
Proof.
  apply (check_and_set_other_keys (Idem.init (Ok ∅)) (Idem.at_time 0) "evt-1" "evt-2"
           3600 10).
  - discriminate.
  - reflexivity.
Defined.

(* ================================================================== *)
(** * The model client *)

Section LLMFacts.

Local Open Scope string_scope.
Variable F : text_format.

(** Whether [v >= n] raises depends on the type of [v] alone. *)
Lemma ge_int_ok v n m b : Py.ge_int v n = Ok b -> exists b', Py.ge_int v m = Ok b'.
Proof. destruct v; cbn [Py.ge_int]; intros H; try discriminate H; eauto. Qed.

Lemma attr_get_ok v k d x k' d' :
  Py.attr_get v k d = Ok x -> exists x', Py.attr_get v k' d' = Ok x'.
Proof. destruct v; cbn [Py.attr_get]; intros H; try discriminate H; eauto. Qed.

(** The mock scorer returns wherever the rule scorer does: both read the
    same entries, with the same demands on their types. *)
Lemma mock_scoring_total st base hint :
  rule_score st = Ok base -> exists answer, LLM._mock_scoring F st hint = Ok answer.
Proof.
  unfold rule_score. intros H.
  apply bind_ok in H as (headcount & Hh & H).
  apply bind_ok in H as (big & Hbig & H).
  apply bind_ok in H as (score1 & _ & H).
  apply bind_ok in H as (industry & _ & H).
  apply bind_ok in H as (title & Htitle & _).
  unfold LLM._mock_scoring.
  destruct (attr_get_ok _ _ _ _ "industry" PNone Hh) as [i ->].
  rewrite Hh. cbn [mbind result_bind].
  destruct (ge_int_ok _ _ 100 _ Hbig) as [b' ->].
  rewrite Htitle. cbn [mbind result_bind]. eauto.
Qed.

(** X15 (the model client in the score stage).  The mock scorer answers
    with a score in [0.0, 1.0] and at least one reason.  The client never
    raises on a state the rule scorer accepts, with or without an API key
    and whatever the API call does, so that with this client the score
    stage never takes its fallback: it appends no error. *)
Theorem model_client_never_fails (api : option (result (float * list string)))
    (C : collaborators) (st : LeadState) :
  (forall hint s reasons,
     LLM._mock_scoring F st hint = Ok (s, reasons) ->
     PyFloat.le 0 s = true /\ PyFloat.le s 1 = true /\ reasons <> [])
  /\ (forall base hint,
        rule_score st = Ok base ->
        exists answer, LLM.score_lead_with_rubric F api st hint = Ok answer)
  /\ (forall st',
        score (LLM.with_client F api C) st = Ok st' ->
        get k_errors st' = get k_errors st).
Proof.
  split; [|split].
  - intros hint s reasons H. unfold LLM._mock_scoring in H.
    apply bind_ok in H as (industry & _ & H).
    apply bind_ok in H as (employees & _ & H).
    apply bind_ok in H as (enterprise & _ & H).
    apply bind_ok in H as (title & _ & H).
    injection H as <- <-.
    split; [apply clamp01_range|]. split; [apply clamp01_range|].
    repeat match goal with
           | |- context [if ?b then _ else _] => destruct b
           end; discriminate.
  - intros base hint Hbase. unfold LLM.score_lead_with_rubric.
    destruct api as [[answer|e]|]; eauto using mock_scoring_total.
  - intros st'. unfold score.
    destruct (rule_score st) as [base|] eqn:Hbase; cbn [mbind result_bind]; [|discriminate].
    cbn [LLM.with_client score_lead_with_rubric].
    destruct (LLM.score_lead_with_rubric F api st base) as [[llm reasons]|e] eqn:Hllm.
    + intros [= <-]. by store_simpl.
    + exfalso. unfold LLM.score_lead_with_rubric in Hllm.
      destruct (mock_scoring_total st base base Hbase) as [answer Hm].
      destruct api as [[answer'|e']|]; congruence.
Qed.

End LLMFacts.

(* ================================================================== *)
(** * The similarity index: the query vector *)

Section PineconeFacts.

Local Open Scope string_scope.
Import Pinecone.


(** The features can be extracted only from a state whose normalized
    country is a string. *)
Lemma features_need_a_country st f :
  _extract_company_features st = Ok f ->
  exists s, Py.get (default [] (get k_normalized st)) "country" (PStr "") = PStr s.
Proof.
  unfold _extract_company_features. intros H.
  apply bind_ok in H as (i & _ & H).
  apply bind_ok in H as (h & _ & H).
  apply bind_ok in H as (t & _ & H).
  apply bind_ok in H as (c & Hc & _).
  destruct (Py.get _ "country" _); try discriminate Hc. eauto.
Qed.

End PineconeFacts.

Section PineconeInARun.

Local Open Scope string_scope.
Variable F : text_format.
Variable C : collaborators.

Lemma scored_normalized payload st :
  scored F C payload = Ok st ->
  exists email company domain,
    get k_normalized st = Some (normalized_dict F payload email company domain).
Proof.
  unfold scored.
  destruct (capture F (initial_state payload)) as [st1|] eqn:H1;
    cbn [mbind result_bind]; [|discriminate].
  intros H2.
  destruct (enrich_footprint C k_normalized st1 ltac:(not_in_keys)) as [Hg _].
  destruct (score_footprint C k_normalized _ _ ltac:(not_in_keys) H2) as [Hg' _].
  rewrite Hg', Hg. clear -H1. unfold capture in H1.
  change (default [] (get k_raw (initial_state payload))) with payload in H1.
  destruct (capture_email payload) as [email|]; [|discriminate].
  destruct (capture_company payload) as [company|]; [|discriminate].
  destruct (capture_domain payload) as [domain|]; [|discriminate].
  cbn [mbind result_bind] in H1. injection H1 as <-.
  exists email, company, domain. by store_simpl.
Qed.

(** X17 (leads without a country).  Capture stores the payload's
    [country] as it is, [None] when the payload has none, and the feature
    extraction calls [.upper()] on it without the [or ""] that the rule
    scorer has: for every lead whose payload has no [country] (or a
    [null] one) the extraction raises when the lead reaches the similarity
    lookup, while the rule scorer has accepted the same state. *)
Theorem features_fail_without_country (payload : pydict) (st : LeadState) :
  Py.get_none payload "country" = PNone ->
  scored F C payload = Ok st ->
  (exists base, rule_score st = Ok base)
  /\ (exists e, Pinecone._extract_company_features st = Raise e)
  /\ (exists e, Pinecone._extract_company_features
                  (set k_decided_path "manual_review" st) = Raise e).
Proof.
  intros Hcountry Hst.
  assert (Hraise : forall st0, get k_normalized st0 = get k_normalized st ->
                     exists e, Pinecone._extract_company_features st0 = Raise e).
  { intros st0 Hn.
    destruct (Pinecone._extract_company_features st0) as [f|e] eqn:Hf; [|eauto].
    apply features_need_a_country in Hf as [s Hs]. exfalso.
    destruct (scored_normalized _ _ Hst) as (email & company & domain & Hnorm).
    rewrite Hn, Hnorm in Hs. cbn in Hs. rewrite Hcountry in Hs. discriminate Hs. }
  split; [|split; apply Hraise; [done|by rewrite get_set_ne]].
  unfold scored in Hst.
  destruct (capture F (initial_state payload)) as [st1|]; cbn [mbind result_bind] in Hst;
    [|discriminate].
  unfold score in Hst.
  destruct (rule_score (enrich C st1)) as [base|] eqn:Hb; cbn [mbind result_bind] in Hst;
    [|discriminate].
  exists base. rewrite <- Hb. unfold rule_score.
  assert (Hk : get k_enrichment st = get k_enrichment (enrich C st1)
               /\ get k_normalized st = get k_normalized (enrich C st1)).
  { destruct (score_lead_with_rubric C _ base) as [[llm reasons]|e];
      injection Hst as <-; by store_simpl. }
  destruct Hk as [-> ->]. reflexivity.
Qed.

End PineconeInARun.

(** Witness of X17: a lead with the three required fields and no
    country. *)
Lemma features_fail_without_country_witness :
  let payload := [("email", PStr "j@acme.com"); ("company", PStr "Acme");
                  ("full_name", PStr "J Doe")]%string in
  exists st,
    scored plain_format (failing "down") payload = Ok st
    /\ (exists base, rule_score st = Ok base)
    /\ exists e, Pinecone._extract_company_features st = Raise e.
Proof.
  intros payload.
  destruct (scored plain_format (failing "down") payload) as [st|e] eqn:Hst.
  - exists st. split; [reflexivity|].
    destruct (features_fail_without_country plain_format (failing "down") payload st
                eq_refl Hst) as (Hb & He & _).
    split; [exact Hb|exact He].
  - vm_compute in Hst. discriminate Hst.
Defined.

(* ================================================================== *)
(** ** The domain that capture stores *)

Section DomainFacts.

Local Open Scope string_scope.
Import PyStr.
Variable F : text_format.

Lemma no_char_cons c a s : no_char c (String a s) <-> a <> c /\ no_char c s.
Proof.
  unfold no_char. cbn [contains String.prefix].
  destruct (ascii_dec c a) as [->|Hne].
  - destruct s; cbn; split; try discriminate; intros [H _]; congruence.
  - cbn [orb]. split; [intros H; split; [congruence|done]|by intros [_ H]].
Qed.

Lemma before_first_no_sep c s : no_char c s -> before_first c s = s.
Proof.
  induction s as [|a s IH]; [done|]. intros [Hne Hs]%no_char_cons.
  cbn [before_first]. destruct (Ascii.eqb_spec a c); [done|]. by rewrite IH.
Qed.

Lemma before_first_has_no_sep c s : no_char c (before_first c s).
Proof.
  induction s as [|a s IH]; [done|]. cbn [before_first].
  destruct (Ascii.eqb_spec a c); [done|]. by apply no_char_cons.
Qed.

Lemma before_first_app c h rest :
  no_char c h -> before_first c (h +:+ String c rest) = h.
Proof.
  induction h as [|a h IH]; simpl.
  - intros _. by rewrite Ascii.eqb_refl.
  - intros [Hne Hs]%no_char_cons. destruct (Ascii.eqb_spec a c); [done|]. by rewrite IH.
Qed.

Lemma prefix_keeps_char c old s :
  no_char c s -> String.prefix old s = true -> no_char c old.
Proof.
  revert s. induction old as [|a old IH]; [done|]. intros [|b s] Hs; [done|].
  cbn [String.prefix]. destruct (ascii_dec a b) as [->|]; [|done].
  apply no_char_cons in Hs as [Hne Hs]. intros H. apply no_char_cons. eauto.
Qed.

Lemma replace_no_match c old new s :
  no_char c s -> ~ no_char c old -> replace old new s = s.
Proof.
  intros Hs Hold. unfold replace. induction s as [|a s IH]; [done|].
  cbn [replace_from].
  destruct (String.prefix old (String a s)) eqn:Hp.
  - destruct Hold. by eapply prefix_keeps_char.
  - apply no_char_cons in Hs as [_ Hs]. by rewrite IH.
Qed.

Lemma str_app_empty_l (s : string) : "" +:+ s = s.
Proof. reflexivity. Qed.
Lemma str_app_cons a (s t : string) : String a s +:+ t = String a (s +:+ t).
Proof. reflexivity. Qed.

(** No occurrence of a scheme starts inside a host name. *)
Lemma no_scheme_in_host old h rest :
  old = "https://" \/ old = "http://" ->
  no_char ":" h -> rest = "" \/ (exists p, rest = String "/" p) ->
  String.prefix old (h +:+ rest) = false.
Proof.
  intros Hold Hh Hrest.
  assert (Hr : forall c t, c <> "/"%char -> String.prefix (String c t) rest = false).
  { intros c t Hc. destruct Hrest as [->|[p ->]]; cbn [String.prefix]; [done|].
    by destruct (ascii_dec _ _). }
  destruct Hold as [-> | ->];
    repeat (let a := fresh "a" in
            destruct h as [|a h]; rewrite ?str_app_empty_l, ?str_app_cons;
            cbn [String.prefix];
            [by apply Hr|];
            apply no_char_cons in Hh as [? Hh];
            destruct (ascii_dec _ a) as [<-|]; [|reflexivity]); congruence.
Qed.

Lemma replace_host old new h rest :
  old = "https://" \/ old = "http://" ->
  no_char ":" h -> path_like rest ->
  exists rest', path_like rest' /\ replace old new (h +:+ rest) = h +:+ rest'.
Proof.
  intros Hold Hc Hrest. unfold replace. induction h as [|a h IH].
  - rewrite !str_app_empty_l. destruct Hrest as [->|[p ->]].
    + exists "". split; [by left|done].
    + cbn [replace_from].
      replace (String.prefix old (String "/" p)) with false
        by (by destruct Hold as [-> | ->]).
      eexists (String "/" _). split; [right; eauto|]. by rewrite str_app_empty_l.
  - rewrite str_app_cons. cbn [replace_from]. rewrite <- str_app_cons.
    rewrite no_scheme_in_host by eauto. rewrite ?str_app_cons.
    apply no_char_cons in Hc as [_ Hc].
    destruct (IH Hc) as (r & Hr & ->). exists r. by rewrite str_app_cons.
Qed.

Lemma before_first_host h rest :
  no_char "/" h -> path_like rest -> before_first "/" (h +:+ rest) = h.
Proof.
  intros Hh [->|[p ->]]; [|by apply before_first_app].
  rewrite <- (before_first_no_sep "/" h) at 2 by done. f_equal.
  clear Hh. induction h as [|a h IH]; [done|]. by rewrite str_app_cons, IH.
Qed.

Lemma prefix_app old s : String.prefix old (old +:+ s) = true.
Proof.
  induction old as [|a old IH]; [by destruct s|].
  rewrite str_app_cons. cbn [String.prefix]. by destruct (ascii_dec a a).
Qed.

Lemma replace_from_skip old new p s :
  replace_from old new (String.length p) (p +:+ s) = replace_from old new 0 s.
Proof. induction p as [|a p IH]; [done|]. by rewrite str_app_cons. Qed.

Lemma replace_from_match old new s :
  old <> "" -> replace_from old new 0 (old +:+ s) = new +:+ replace_from old new 0 s.
Proof.
  destruct old as [|c old]; [done|]. intros _.
  rewrite str_app_cons. cbn [replace_from]. rewrite <- str_app_cons, prefix_app.
  cbn [String.length]. by rewrite Nat.sub_1_r, Nat.pred_succ, replace_from_skip.
Qed.

Lemma replace_from_no_match old new c s :
  String.prefix old (String c s) = false ->
  replace_from old new 0 (String c s) = String c (replace_from old new 0 s).
Proof. intros H. cbn [replace_from]. by rewrite H. Qed.

Lemma replace_https_scheme s :
  replace "https://" "" ("https://" +:+ s) = replace "https://" "" s.
Proof. unfold replace. by rewrite replace_from_match. Qed.

Lemma replace_http_scheme s :
  replace "http://" "" ("http://" +:+ s) = replace "http://" "" s.
Proof. unfold replace. by rewrite replace_from_match. Qed.

Lemma replace_https_keeps_http s :
  replace "https://" "" ("http://" +:+ s) = "http://" +:+ replace "https://" "" s.
Proof.
  unfold replace. rewrite !str_app_cons, str_app_empty_l.
  by rewrite !replace_from_no_match by reflexivity.
Qed.

Lemma host_of_url scheme host rest :
  scheme = "https://" \/ scheme = "http://" \/ scheme = "" ->
  no_char ":" host -> no_char "/" host -> path_like rest ->
  before_first "/" (replace "http://" "" (replace "https://" "" (scheme +:+ host +:+ rest)))
  = host.
Proof.
  intros Hs Hc Hsl Hrest.
  destruct (replace_host "https://" "" host rest) as (r1 & Hr1 & E1); [by left|done..|].
  destruct (replace_host "http://" "" host r1) as (r2 & Hr2 & E2); [by right|done..|].
  destruct Hs as [-> | [-> | ->]].
  - by rewrite replace_https_scheme, E1, E2, before_first_host.
  - by rewrite replace_https_keeps_http, E1, replace_http_scheme, E2, before_first_host.
  - by rewrite str_app_empty_l, E1, E2, before_first_host.
Qed.

(** X18 (capture.py, line 16).  The domain of a URL is its host: when the
    payload's [website] (or, failing that, its [domain]) is a string made
    of an optional scheme "https://" or "http://", a host without ":" and
    "/", and then nothing or a path starting with "/", the domain
    expression evaluates to the host. *)
Theorem domain_is_the_host (raw : pydict) (scheme host rest : string) :
  scheme = "https://" \/ scheme = "http://" \/ scheme = "" ->
  no_char ":" host -> no_char "/" host -> path_like rest ->
  Py.or_val (Py.get_none raw "website") (Py.or_val (Py.get_none raw "domain") (PStr ""))
  = PStr (scheme +:+ host +:+ rest) ->
  capture_domain raw = Ok host.
Proof.
  intros Hs Hc Hsl Hrest Hurl. unfold capture_domain. rewrite Hurl.
  cbn [Py.str_method]. by rewrite host_of_url.
Qed.

(** X19 (capture.py, lines 16-33).  Whenever capture returns, the
    [domain] entry of [normalized] is a string in which "/" does not
    occur. *)
Theorem stored_domain_has_no_slash (st st' : LeadState) :
  capture F st = Ok st' ->
  exists d, Py.get_none (default [] (get k_normalized st')) "domain" = PStr d
            /\ no_char "/" d.
Proof.
  unfold capture. set (raw := default [] (get k_raw st)).
  destruct (capture_email raw) as [email|e]; [|discriminate].
  destruct (capture_company raw) as [company|e]; [|discriminate].
  destruct (capture_domain raw) as [domain|e] eqn:Hd; [|discriminate].
  cbn [mbind result_bind]. intros [= <-]. exists domain. split.
  - by store_simpl.
  - unfold capture_domain, Py.str_method in Hd.
    destruct (Py.or_val _ _); try discriminate. injection Hd as <-.
    apply before_first_has_no_sep.
Qed.

End DomainFacts.

Lemma domain_is_the_host_witness :
  capture_domain [("website", PStr "https://acme.com/about")]%string = Ok "acme.com"%string.
Proof.
  apply (domain_is_the_host _ "https://" "acme.com" "/about")%string;
    [by left|reflexivity|reflexivity|right; by eexists|reflexivity].
Defined.

Lemma stored_domain_has_no_slash_witness :
  let payload := [("email", PStr "j@acme.com");
                  ("website", PStr "http://acme.com/pricing/plans")]%string in
  exists st' d,
    capture plain_format (initial_state payload) = Ok st'
    /\ Py.get_none (default [] (get k_normalized st')) "domain" = PStr d
    /\ no_char "/" d.
Proof.
  intros payload.
  destruct (capture plain_format (initial_state payload)) as [st'|e] eqn:Hc.
  - destruct (stored_domain_has_no_slash plain_format _ st' Hc) as (d & H1 & H2).
    by exists st', d.
  - vm_compute in Hc. discriminate Hc.
Defined.

(* ================================================================== *)
(** * The enrichment provider, and a deployment without API keys *)

Section EnricherFacts.

Local Open Scope string_scope.
Variable F : text_format.
Variable S : Clearbit.service.
Variable C : collaborators.

(** X20 (the enrichment provider in the enrich stage).  Whatever the
    requests and the event loop do, [enrich_domain_person] returns, and
    what it returns has a [company], a [person] and an
    [enrichment_source] entry; when the event loop refuses to run and one
    of the arguments is truthy, it is the fallback dict (a company of 100
    employees in "Technology").  So with this provider the enrich stage
    never takes its [except] branch: it appends no error. *)
Theorem enricher_never_fails (st : LeadState) :
  (forall domain email,
     exists data,
       Clearbit.enrich_domain_person F S domain email = Ok data
       /\ is_Some (Py.lookup "company" data) /\ is_Some (Py.lookup "person" data)
       /\ is_Some (Py.lookup "enrichment_source" data))
  /\ (forall e domain email,
        Clearbit.loop_error S = Some e ->
        Py.truthy domain || Py.truthy email = true ->
        Clearbit.enrich_domain_person F S domain email
        = Ok (Clearbit.fallback_data domain email))
  /\ errors_of (enrich (Clearbit.with_enricher F S C) st) = errors_of st.
Proof.
  assert (Hok : forall domain email,
            exists data,
              Clearbit.enrich_domain_person F S domain email = Ok data
              /\ is_Some (Py.lookup "company" data) /\ is_Some (Py.lookup "person" data)
              /\ is_Some (Py.lookup "enrichment_source" data)).
  { intros domain email. unfold Clearbit.enrich_domain_person.
    match goal with
    | |- context [match ?a with Ok _ => _ | Raise _ => _ end] => destruct a as [data|] eqn:Ha
    end.
    - exists data. split; [done|].
      apply bind_ok in Ha as (company_data & _ & Ha).
      apply bind_ok in Ha as (person_data & _ & Ha).
      apply bind_ok in Ha as (company & _ & Ha).
      apply bind_ok in Ha as (person & _ & Ha).
      injection Ha as <-. cbn. eauto.
    - eexists. split; [done|]. cbn. eauto. }
  split; [exact Hok|]. split.
  - intros e domain email He Ht. unfold Clearbit.enrich_domain_person.
    unfold Clearbit.run_until_complete. rewrite He.
    destruct (Py.truthy domain); [done|]. by destruct (Py.truthy email).
  - unfold enrich. cbn [Clearbit.with_enricher enrich_domain_person].
    destruct (_ && _); [by rewrite errors_of_set|].
    destruct (Hok (Py.get_none (default [] (get k_normalized st)) "domain")
                  (Py.get_none (default [] (get k_normalized st)) "email"))
      as (data & -> & _).
    by rewrite errors_of_set.
Qed.

End EnricherFacts.

(** The next call of a sequence, with its outcome computed. *)
Ltac run_step H :=
  let x := fresh "x" in
  let Hx := fresh "Hx" in
  apply bind_ok in H as (x & Hx & H); vm_compute in Hx; injection Hx as <-.

(** Every combination of the conditions a score depends on. *)
Ltac all_cases :=
  repeat match goal with
         | |- context [add_if ?b _ _] =>
             lazymatch b with true => fail | false => fail | _ => destruct b end
         | |- context [if ?b then _ else _] =>
             lazymatch b with true => fail | false => fail | _ => destruct b end
         end;
  vm_compute; reflexivity.

Section MockMode.

Local Open Scope string_scope.
Variable F : text_format.
Variable C : collaborators.

(** The score stored in mock mode, given what the mock enrichment holds
    under [company]: the mock company when [b], nothing otherwise. *)
Lemma mock_mode_score_value st st' D norm d (b : bool) :
  get k_enrichment st = Some D -> get k_normalized st = Some norm ->
  Py.attr_get (if b then Clearbit._mock_company_data F d else PDict []) "company" (PDict [])
  = Ok (Py.get D "company" (PDict [])) ->
  score (mock_mode F C) st = Ok st' ->
  exists s : float, get k_score st' = Some s /\ PyFloat.lt s 0.4 = negb b.
Proof.
  intros HD Hnorm Hcomp. unfold score.
  destruct (rule_score st) as [base|] eqn:Hbase; cbn [mbind result_bind]; [|discriminate].
  change (score_lead_with_rubric (mock_mode F C) st base) with (LLM._mock_scoring F st base).
  destruct (mock_scoring_total F st base base Hbase) as [[llm reasons] Hllm].
  rewrite Hllm. intros [= <-]. eexists. split; [by store_simpl|].
  unfold rule_score in Hbase. unfold LLM._mock_scoring in Hllm.
  rewrite HD, Hnorm in Hbase, Hllm. cbn [default from_option id] in Hbase, Hllm.
  assert (Hc : exists comp, Py.get D "company" (PDict []) = PDict comp
                /\ Py.attr_get (if b then Clearbit._mock_company_data F d else PDict [])
                     "company" (PDict []) = Ok (PDict comp)).
  { destruct b; cbn in Hcomp; injection Hcomp as <-; eexists; split; reflexivity. }
  destruct Hc as (comp & Hget & Hc). rewrite Hget in Hbase, Hllm. clear Hcomp HD Hget.
  destruct b; vm_compute in Hc; injection Hc as <-.
  - run_step Hbase. run_step Hbase. run_step Hbase. run_step Hbase.
    apply bind_ok in Hbase as (title & Htitle & Hbase).
    apply bind_ok in Hbase as (country & Hcountry & Hbase).
    apply bind_ok in Hbase as (score0 & Hfree & Hbase).
    unfold blocked_free_email in Hfree.
    apply bind_ok in Hfree as (free & _ & Hfree). injection Hfree as <-.
    run_step Hbase. injection Hbase as <-.
    run_step Hllm. run_step Hllm. run_step Hllm.
    rewrite Htitle in Hllm. cbn [mbind result_bind] in Hllm. injection Hllm as <- _.
    all_cases.
  - run_step Hbase. run_step Hbase. run_step Hbase. run_step Hbase.
    apply bind_ok in Hbase as (title & Htitle & Hbase).
    apply bind_ok in Hbase as (country & Hcountry & Hbase).
    apply bind_ok in Hbase as (score0 & Hfree & Hbase).
    unfold blocked_free_email in Hfree.
    apply bind_ok in Hfree as (free & _ & Hfree). injection Hfree as <-.
    run_step Hbase. injection Hbase as <-.
    run_step Hllm. run_step Hllm. run_step Hllm.
    rewrite Htitle in Hllm. cbn [mbind result_bind] in Hllm. injection Hllm as <- _.
    all_cases.
Qed.

End MockMode.

Section MockModeRun.

Local Open Scope string_scope.
Variable F : text_format.
Variable C : collaborators.

Lemma capture_normalized payload st1 :
  capture F (initial_state payload) = Ok st1 ->
  exists email company domain,
    capture_domain payload = Ok domain
    /\ get k_normalized st1 = Some (normalized_dict F payload email company domain).
Proof.
  unfold capture.
  change (default [] (get k_raw (initial_state payload))) with payload.
  destruct (capture_email payload) as [email|]; [|discriminate].
  destruct (capture_company payload) as [company|]; [|discriminate].
  destruct (capture_domain payload) as [domain|]; [|discriminate].
  cbn [mbind result_bind]. intros [= <-]. exists email, company, domain.
  split; [done|]. by store_simpl.
Qed.

(** What the mock provider stores under [company]. *)
Lemma mock_enrichment_company st norm domain email :
  get k_normalized st = Some norm ->
  Py.get_none norm "domain" = PStr domain -> Py.get_none norm "email" = PStr email ->
  exists D, get k_enrichment (enrich (mock_mode F C) st) = Some D
            /\ Py.attr_get (if PyStr.nonempty domain
                            then Clearbit._mock_company_data F (PStr domain)
                            else PDict []) "company" (PDict [])
               = Ok (Py.get D "company" (PDict [])).
Proof.
  intros Hnorm Hd He. unfold enrich. rewrite Hnorm. cbn [default from_option id].
  rewrite Hd, He.
  destruct domain as [|c domain]; destruct email as [|c' email];
    cbn [Py.truthy PyStr.nonempty negb andb];
    eexists; (split; [by store_simpl|reflexivity]).
Qed.

Lemma mock_mode_scored payload st :
  scored F (mock_mode F C) payload = Ok st ->
  exists (domain : string) (s : float),
    capture_domain payload = Ok domain
    /\ get k_score st = Some s
    /\ PyFloat.lt s 0.4 = negb (PyStr.nonempty domain).
Proof.
  unfold scored.
  destruct (capture F (initial_state payload)) as [st1|] eqn:H1;
    cbn [mbind result_bind]; [|discriminate].
  intros H2.
  destruct (capture_normalized _ _ H1) as (email & company & domain & Hdom & Hnorm).
  destruct (mock_enrichment_company st1 _ domain email Hnorm eq_refl eq_refl)
    as (D & HD & Hcomp).
  destruct (enrich_footprint (mock_mode F C) k_normalized st1 ltac:(not_in_keys)) as [Hg _].
  rewrite <- Hg in Hnorm.
  destruct (mock_mode_score_value F C _ _ _ _ _ _ HD Hnorm Hcomp H2) as (s & Hs & Hlt).
  by exists domain, s.
Qed.


End MockModeRun.

